(** * Expense tracker (expense_tracker_ai.py): a shallow embedding

    The program is one Streamlit script.  Every interaction of the user
    re-runs the script from top to bottom against the session's expense
    list ([st.session_state.expenses]); a button is true only in the run
    that its click triggered.

    Modelling choices, fixed here once:

    - A Python [str] is a Rocq [string] holding its UTF-8 bytes.  The
      character classes ([str.strip], [\s], [\d], [float]) are the ASCII
      ones; the spaces and decimal digits of Unicode beyond ASCII are not
      covered.  On every other text the byte view agrees with the code
      point view: [','], the ASCII spaces and digits never occur inside a
      multi-byte sequence.
    - A Python [float] is a [pyfloat]: the rational a finite binary64
      value is equal to, an infinity or NaN.  Every operation rounds its
      exact result to binary64, to nearest with ties to even, and
      overflows to an infinity ([round64]).  The sign of zero is not
      kept: it shows in no comparison and in no sum the script makes.
    - The pandas calls of the display block are modelled by what they
      return.  The column sum adds in the order of numpy's pairwise
      summation, NaN counted as zero; [groupby] has one row per category
      in ascending order of the keys, each with the compensated sum that
      pandas keeps per group; [sort_values] orders by descending amount
      with NaN last.  Rows of equal amount keep their order here; no
      property below depends on it.
    - The classifier and the pie chart of matplotlib are parameters of
      the script: the classifier returns a result or raises any
      exception; the pie chart draws or raises [ValueError], the one
      exception matplotlib raises on sizes it refuses.  The other widget
      calls are taken to return.
    - Exceptions are values of [exn]; code that may raise returns a
      [result]. *)

From Stdlib Require Import List String Ascii Bool.
From Stdlib Require Import NArith ZArith QArith Qreduction.
From Stdlib Require Import Sorted Permutation Lia.
Import ListNotations.

Local Open Scope string_scope.
Local Open Scope list_scope.

(** ** Exceptions *)

Inductive exn : Type :=
| ValueError
| IndexError
| ZeroDivisionError
| CollaboratorError.

Inductive result (A : Type) : Type :=
| Ok (a : A)
| Raise (e : exn).

Arguments Ok {A} a.
Arguments Raise {A} e.

Definition bind {A B : Type} (r : result A) (k : A -> result B) : result B :=
  match r with
  | Ok a => k a
  | Raise e => Raise e
  end.

Notation "x <- r ;; k" := (bind r (fun x => k))
  (at level 61, r at next level, right associativity).

(** ** Characters and strings *)

Definition code (c : ascii) : N := N_of_ascii c.

Definition in_range (lo hi : N) (c : ascii) : bool :=
  ((lo <=? code c) && (code c <=? hi))%N.

(** [\d] and the digits [float()] reads. *)
Definition is_digit (c : ascii) : bool := in_range 48 57 c.

(** [str.isspace] on ASCII: what [str.strip()] removes and [\s] matches. *)
Definition is_space (c : ascii) : bool :=
  in_range 9 13 c || in_range 28 31 c || (code c =? 32)%N.

(** [Py_ISSPACE]: the C-locale spaces [float()] skips around a number. *)
Definition is_cspace (c : ascii) : bool :=
  in_range 9 13 c || (code c =? 32)%N.

Definition to_lower (c : ascii) : ascii :=
  if in_range 65 90 c then ascii_of_N (code c + 32) else c.

Fixpoint lower (s : string) : string :=
  match s with
  | EmptyString => EmptyString
  | String c r => String (to_lower c) (lower r)
  end.

Fixpoint forallb_str (p : ascii -> bool) (s : string) : bool :=
  match s with
  | EmptyString => true
  | String c r => p c && forallb_str p r
  end.

Fixpoint drop_while (p : ascii -> bool) (s : string) : string :=
  match s with
  | EmptyString => EmptyString
  | String c r => if p c then drop_while p r else s
  end.

(** Removes the trailing characters satisfying [p]. *)
Fixpoint drop_while_end (p : ascii -> bool) (s : string) : string :=
  match s with
  | EmptyString => EmptyString
  | String c r =>
      match drop_while_end p r with
      | EmptyString => if p c then EmptyString else String c EmptyString
      | r' => String c r'
      end
  end.

(** [s.strip()] *)
Definition strip (s : string) : string :=
  drop_while_end is_space (drop_while is_space s).

(** [s.split(',')]: never the empty list; [n] commas give [n + 1] fields. *)
Fixpoint split_comma (s : string) : list string :=
  match s with
  | EmptyString => [EmptyString]
  | String c r =>
      if (code c =? 44)%N then EmptyString :: split_comma r
      else
        match split_comma r with
        | f :: fs => String c f :: fs
        | [] => [String c EmptyString]
        end
  end.

(** The longest prefix of digits and what follows it. *)
Fixpoint take_digits (s : string) : string * string :=
  match s with
  | EmptyString => (EmptyString, EmptyString)
  | String c r =>
      if is_digit c then
        let (d, rest) := take_digits r in (String c d, rest)
      else (EmptyString, s)
  end.

(** [Some rest] when [s = p ++ rest]. *)
Fixpoint strip_prefix (p s : string) : option string :=
  match p, s with
  | EmptyString, _ => Some s
  | String a p', String b s' =>
      if Ascii.eqb a b then strip_prefix p' s' else None
  | String _ _, EmptyString => None
  end.

(** ** Floats *)

Inductive pyfloat : Type :=
| Fin (q : Q)
| Inf (negative : bool)
| NaN.

Definition fzero : pyfloat := Fin 0.

(** *** Rounding to binary64 *)

(** The binade of [n / d]: the [k] with [2 ^ k <= n / d < 2 ^ (k + 1)]. *)
Definition binade (n d : positive) : Z :=
  let k := (Z.log2 (Zpos n) - Z.log2 (Zpos d))%Z in
  let reaches :=
    if (0 <=? k)%Z then (Zpos d * 2 ^ k <=? Zpos n)%Z
    else (Zpos d <=? Zpos n * 2 ^ (- k))%Z in
  if reaches then k else (k - 1)%Z.

(** [n / d] rounded to binary64: 53 bits of mantissa, the last place no
    finer than [2 ^ -1074], ties to the even mantissa, an infinity from
    [2 ^ 1024] on. *)
Definition round_pos (negative : bool) (n d : positive) : pyfloat :=
  let ex := Z.max (binade n d - 52) (-1074) in
  let num := (if ex <? 0 then Zpos n * 2 ^ (- ex) else Zpos n)%Z in
  let den := (if ex <? 0 then Zpos d else Zpos d * 2 ^ ex)%Z in
  let m := (num / den)%Z in
  let r := (num mod den)%Z in
  let up := ((den <? 2 * r) || ((den =? 2 * r) && Z.odd m))%Z in
  let m' := (if up then m + 1 else m)%Z in
  if (2 ^ 1024 <=? m' * 2 ^ ex)%Z then Inf negative
  else
    let v := if (ex <? 0)%Z then Qmake m' (Z.to_pos (2 ^ (- ex)))
             else inject_Z (m' * 2 ^ ex) in
    Fin (Qred (if negative then Qopp v else v)).

Definition round64 (q : Q) : pyfloat :=
  match Qnum q with
  | Z0 => Fin 0
  | Zpos n => round_pos false n (Qden q)
  | Zneg n => round_pos true n (Qden q)
  end.

(** *** Arithmetic and comparisons *)

(** [-x] *)
Definition fneg (x : pyfloat) : pyfloat :=
  match x with
  | Fin q => Fin (Qred (- q))
  | Inf s => Inf (negb s)
  | NaN => NaN
  end.

(** [x + y] *)
Definition fadd (x y : pyfloat) : pyfloat :=
  match x, y with
  | NaN, _ | _, NaN => NaN
  | Fin a, Fin b => round64 (a + b)
  | Fin _, Inf s | Inf s, Fin _ => Inf s
  | Inf s, Inf t => if Bool.eqb s t then Inf s else NaN
  end.

(** [x - y] *)
Definition fsub (x y : pyfloat) : pyfloat := fadd x (fneg y).

(** [x / n] for a count [n], which is converted to a float first. *)
Definition fdiv_count (x : pyfloat) (n : nat) : pyfloat :=
  match x with
  | Fin q =>
      match round64 (inject_Z (Z.of_nat n)) with
      | Fin d => round64 (q / d)
      | _ => Fin 0
      end
  | other => other
  end.

(** [x < y]; false as soon as one side is NaN. *)
Definition fltb (x y : pyfloat) : bool :=
  match x, y with
  | NaN, _ | _, NaN => false
  | Fin a, Fin b => negb (Qle_bool b a)
  | Fin _, Inf s => negb s
  | Inf s, Fin _ => s
  | Inf s, Inf t => s && negb t
  end.

(** [x > y] *)
Definition fgtb (x y : pyfloat) : bool := fltb y x.

(** [x >= y]; false as soon as one side is NaN. *)
Definition fgeb (x y : pyfloat) : bool :=
  match x, y with
  | NaN, _ | _, NaN => false
  | _, _ => negb (fltb x y)
  end.

(** Equality of the numbers denoted, NaN equal to itself: the identity of
    results, not Python's [==]. *)
Definition feq (x y : pyfloat) : Prop :=
  match x, y with
  | Fin a, Fin b => (a == b)%Q
  | Inf s, Inf t => s = t
  | NaN, NaN => True
  | _, _ => False
  end.

(** *** [float(s)] *)

(** The value of a string of digits. *)
Fixpoint digits_value_from (acc : N) (s : string) : N :=
  match s with
  | EmptyString => acc
  | String c r => digits_value_from (10 * acc + (code c - 48))%N r
  end.

Definition digits_value (s : string) : N := digits_value_from 0 s.

(** [m * 10 ^ e] as the float nearest to it. *)
Definition decimal (negative : bool) (m : N) (e : Z) : pyfloat :=
  let mz := if negative then (- Z.of_N m)%Z else Z.of_N m in
  round64 (if (0 <=? e)%Z then inject_Z (mz * 10 ^ e)
           else Qmake mz (Z.to_pos (10 ^ (- e)))).

(** The pass [float()] makes over a string that holds an underscore: an
    underscore must stand between two digits, and is dropped. *)
Fixpoint drop_underscores (prev : ascii) (s : string) : option string :=
  match s with
  | EmptyString =>
      if (code prev =? 95)%N then None else Some EmptyString
  | String c r =>
      if (code c =? 95)%N then
        if is_digit prev then drop_underscores c r else None
      else if (code prev =? 95)%N && negb (is_digit c) then None
      else option_map (String c) (drop_underscores c r)
  end.

(** An optional sign: whether it is [-], and what follows. *)
Definition take_sign (s : string) : bool * string :=
  match s with
  | String c r =>
      if (code c =? 45)%N then (true, r)
      else if (code c =? 43)%N then (false, r)
      else (false, s)
  | EmptyString => (false, s)
  end.

(** The exponent part [e[+-]digits]; without digits after the [e] nothing
    is read and the [e] is left over. *)
Definition take_exponent (s : string) : Z * string :=
  match s with
  | String c r =>
      if (code (to_lower c) =? 101)%N then
        let (neg, r1) := take_sign r in
        let (ds, r2) := take_digits r1 in
        match ds with
        | EmptyString => (0%Z, s)
        | _ =>
            let v := Z.of_N (digits_value ds) in
            ((if neg then - v else v)%Z, r2)
        end
      else (0%Z, s)
  | EmptyString => (0%Z, s)
  end.

(** A decimal literal after its sign: digits, an optional point, digits
    (one digit at least), an optional exponent; nothing may follow. *)
Definition parse_decimal (negative : bool) (s : string) : option pyfloat :=
  let (ip, r1) := take_digits s in
  let (fp, r2) :=
    match r1 with
    | String c r =>
        if (code c =? 46)%N then take_digits r else (EmptyString, r1)
    | EmptyString => (EmptyString, r1)
    end in
  match (ip ++ fp)%string with
  | EmptyString => None
  | ds =>
      let (e, r3) := take_exponent r2 in
      match r3 with
      | EmptyString =>
          Some (decimal negative (digits_value ds)
                  (e - Z.of_nat (String.length fp)))
      | _ => None
      end
  end.

(** [inf], [infinity] and [nan], in any case. *)
Definition parse_inf_nan (negative : bool) (s : string) : option pyfloat :=
  let l := lower s in
  if (l =? "inf") || (l =? "infinity") then Some (Inf negative)
  else if l =? "nan" then Some NaN
  else None.

(** [float(s)] for a [str]. *)
Definition float (s : string) : result pyfloat :=
  let cleaned :=
    if forallb_str (fun c => negb (code c =? 95)%N) s then Some s
    else drop_underscores zero s in
  match cleaned with
  | None => Raise ValueError
  | Some s1 =>
      let s2 := drop_while_end is_cspace (drop_while is_cspace s1) in
      let (neg, s3) := take_sign s2 in
      match parse_decimal neg s3 with
      | Some v => Ok v
      | None =>
          match parse_inf_nan neg s3 with
          | Some v => Ok v
          | None => Raise ValueError
          end
      end
  end.

(** ** The amount extractor *)

(** The pattern of [extract_amount] is an optional marker [(?:₹|INR)?],
    an optional space [\s?] and group 1, made of [\d+], [[.,]?] and
    [\d*].  It is matched piece by piece with the backtracking of [re]:
    every function below anchors its piece at the head of [s] and returns
    group 1 of the match, if there is one. *)

Definition rupee : string := "₹".

Definition is_separator (c : ascii) : bool :=
  (code c =? 46)%N || (code c =? 44)%N.

(** Group 1: each piece is greedy, and nothing after [\d+] can fail, so
    the first try is the match. *)
Definition number_at (s : string) : option string :=
  let (d1, r1) := take_digits s in
  match d1 with
  | EmptyString => None
  | _ =>
      match r1 with
      | String c r2 =>
          if is_separator c then
            let (d2, _) := take_digits r2 in Some (d1 ++ String c d2)%string
          else Some d1
      | EmptyString => Some d1
      end
  end.

(** [\s?] and group 1: first with the space taken, then without. *)
Definition space_number_at (s : string) : option string :=
  match s with
  | String c r =>
      if is_space c then
        match number_at r with
        | Some g => Some g
        | None => number_at s
        end
      else number_at s
  | EmptyString => number_at s
  end.

(** One alternative of the marker group, followed by the rest. *)
Definition marker_at (marker s : string) : option string :=
  match strip_prefix marker s with
  | Some r => space_number_at r
  | None => None
  end.

(** The whole pattern: the marker [₹], else the marker [INR], else none. *)
Definition pattern_at (s : string) : option string :=
  match marker_at rupee s with
  | Some g => Some g
  | None =>
      match marker_at "INR" s with
      | Some g => Some g
      | None => space_number_at s
      end
  end.

(** [re.search(pattern, s)]: the match at the leftmost position that has
    one; group 1 of it. *)
Fixpoint re_search (s : string) : option string :=
  match pattern_at s with
  | Some g => Some g
  | None =>
      match s with
      | EmptyString => None
      | String _ r => re_search r
      end
  end.

Definition extract_amount (text : string) : result pyfloat :=
  match re_search text with
  | Some g => float g
  | None => Ok (Fin 0)
  end.

(** ** The expense store *)

Record expense : Type := {
  Description : string;
  Amount : pyfloat;
  Category : string
}.

Definition store : Type := list expense.

Definition CATEGORY_LABELS : list string :=
  ["Food"; "Transport"; "Utilities"; "Entertainment"; "Shopping";
   "Healthcare"; "Others"].

(** What the script tells the user through [st.sidebar.error],
    [st.sidebar.success] and [st.success]. *)
Inductive message : Type :=
| AmountsMustBeNumeric
| CountsMustMatch
| ManualAdded
| AiAdded (amount : pyfloat) (category : string)
| AllCleared.

Definition is_error (m : message) : bool :=
  match m with
  | AmountsMustBeNumeric | CountsMustMatch => true
  | _ => false
  end.

(** *** Manual entry *)

(** [[float(amount.strip()) for amount in fields]]: left to right, the
    first failure ends the comprehension. *)
Fixpoint parse_amounts (fields : list string) : result (list pyfloat) :=
  match fields with
  | [] => Ok []
  | f :: fs =>
      a <- float (strip f) ;;
      rest <- parse_amounts fs ;;
      Ok (a :: rest)
  end.

Definition manual_record (cat : string) (amt : pyfloat) : expense :=
  {| Description := ("Manual: " ++ cat)%string;
     Amount := amt;
     Category := cat |}.

Definition manual_records (cats : list string) (amts : list pyfloat)
  : list expense :=
  map (fun p => manual_record (fst p) (snd p)) (combine cats amts).

(** The body of the "Add Manual Expenses" button.  [float] raises nothing
    but [ValueError] (see [float_raises_ValueError]), which the [except]
    clause catches. *)
Definition add_manual (categories_input amounts_input : string) (st : store)
  : store * list message :=
  let categories := map strip (split_comma categories_input) in
  let (amounts, errors) :=
    match parse_amounts (split_comma amounts_input) with
    | Ok amounts => (amounts, [])
    | Raise _ => ([], [AmountsMustBeNumeric])
    end in
  if negb (List.length categories =? List.length amounts)%nat then
    (st, errors ++ [CountsMustMatch])
  else
    (st ++ manual_records categories amounts, errors ++ [ManualAdded]).

(** ** The aggregation of the display block *)

Definition is_nan (x : pyfloat) : bool :=
  match x with
  | NaN => true
  | _ => false
  end.

(** *** [df["Amount"].sum()] *)

(** The sum numpy makes of fewer than eight values, and of what is left
    over after its blocks: one after the other. *)
Definition sum_from (acc : pyfloat) (xs : list pyfloat) : pyfloat :=
  fold_left fadd xs acc.

(** The values at the places [j], [j + 8], [j + 16], ... of [xs]. *)
Definition lane (j : nat) (xs : list pyfloat) : list pyfloat :=
  map (fun i => nth (8 * i + j) xs fzero) (seq 0 (List.length xs / 8)).

Definition lane_sum (j : nat) (xs : list pyfloat) : pyfloat :=
  match lane j xs with
  | [] => fzero
  | a :: rest => sum_from a rest
  end.

(** The sum of a block of 8 to 128 values: eight running sums over the
    values taken eight by eight, added up in pairs, then the values left
    over. *)
Definition block_sum (xs : list pyfloat) : pyfloat :=
  let n := List.length xs in
  let body := firstn (n - n mod 8) xs in
  let r := fun j => lane_sum j body in
  sum_from
    (fadd (fadd (fadd (r 0%nat) (r 1%nat)) (fadd (r 2%nat) (r 3%nat)))
          (fadd (fadd (r 4%nat) (r 5%nat)) (fadd (r 6%nat) (r 7%nat))))
    (skipn (n - n mod 8) xs).

(** numpy's pairwise summation: beyond 128 values the array is cut near
    its middle, at a multiple of eight, and the sums of the halves are
    added.  [fuel] bounds the depth of the cuts. *)
Fixpoint pairwise_sum (fuel : nat) (xs : list pyfloat) : pyfloat :=
  let n := List.length xs in
  if (n <? 8)%nat then sum_from fzero xs
  else if (n <=? 128)%nat then block_sum xs
  else
    match fuel with
    | O => block_sum xs
    | S fuel' =>
        let n2 := (n / 2 - (n / 2) mod 8)%nat in
        fadd (pairwise_sum fuel' (firstn n2 xs))
             (pairwise_sum fuel' (skipn n2 xs))
    end.

(** [Series.sum()]: NaN entries count as zero ([skipna]), and the sum
    is added to the initial [0.0] of the reduction. *)
Definition series_sum (xs : list pyfloat) : pyfloat :=
  fadd fzero
    (pairwise_sum (List.length xs)
       (map (fun x => if is_nan x then fzero else x) xs)).

(** *** [df.groupby("Category")["Amount"].sum()] *)

(** One step of the compensated sum pandas keeps per group: the running
    sum and the error carried so far, which is set back to zero when it
    comes out as NaN, as it does next to an infinity. *)
Definition kahan_step (state : pyfloat * pyfloat) (val : pyfloat)
  : pyfloat * pyfloat :=
  let (sumx, compensation) := state in
  let y := fsub val compensation in
  let t := fadd sumx y in
  let c := fsub (fsub t sumx) y in
  (t, if is_nan c then fzero else c).

(** The sum of one group: NaN entries are skipped. *)
Definition group_sum (xs : list pyfloat) : pyfloat :=
  fst (fold_left kahan_step (filter (fun x => negb (is_nan x)) xs)
         (fzero, fzero)).

(** The keys of [groupby]: each category once, in ascending order. *)
Fixpoint insert_key (k : string) (ks : list string) : list string :=
  match ks with
  | [] => [k]
  | k' :: rest =>
      if String.leb k k' then k :: ks else k' :: insert_key k rest
  end.

Definition sort_keys (ks : list string) : list string :=
  fold_right insert_key [] ks.

Definition group_keys (st : store) : list string :=
  sort_keys (nodup string_dec (map Category st)).

Definition group_rows (k : string) (st : store) : store :=
  filter (fun r => Category r =? k) st.

(** [df.groupby("Category")["Amount"].sum().reset_index()] *)
Definition groupby_sum (st : store) : list (string * pyfloat) :=
  map (fun k => (k, group_sum (map Amount (group_rows k st)))) (group_keys st).

(** Whether a row of amount [a] may stand before one of amount [b] in
    descending order; NaN goes last. *)
Definition before (a b : pyfloat) : bool :=
  match a, b with
  | _, NaN => true
  | NaN, _ => false
  | _, _ => fgeb a b
  end.

Fixpoint insert_desc (x : string * pyfloat) (l : list (string * pyfloat))
  : list (string * pyfloat) :=
  match l with
  | [] => [x]
  | y :: rest =>
      if before (snd x) (snd y) then x :: l else y :: insert_desc x rest
  end.

(** [.sort_values(by="Amount", ascending=False)], as a stable sort: rows
    of equal amount keep their order (pandas promises no order there). *)
Definition sort_values_desc (l : list (string * pyfloat))
  : list (string * pyfloat) :=
  fold_right insert_desc [] l.

(** [total / len(df)]; a zero divisor is made an error here, so that its
    absence can be stated. *)
Definition div_len (x : pyfloat) (n : nat) : result pyfloat :=
  match n with
  | O => Raise ZeroDivisionError
  | S _ => Ok (fdiv_count x n)
  end.

(** [summary.iloc[0]] *)
Definition iloc0 {A : Type} (l : list A) : result A :=
  match l with
  | x :: _ => Ok x
  | [] => Raise IndexError
  end.

Definition budget_check (user_budget total : pyfloat) : option bool :=
  if fgtb user_budget fzero then Some (fgtb total user_budget) else None.

(** What the display block has computed and shown before it draws the
    charts: the total, the budget note ([Some true] for the "Budget
    Exceeded" warning, [Some false] for the "within your budget" note,
    [None] when neither is shown) and the summary. *)
Record overview : Type := {
  ov_total : pyfloat;
  ov_alert : option bool;
  ov_summary : list (string * pyfloat)
}.

(** From [df = pd.DataFrame(...)] to the line that builds [summary];
    [None] when the store is empty and the block is skipped. *)
Definition overview_of (user_budget : pyfloat) (st : store)
  : option overview :=
  match st with
  | [] => None
  | _ :: _ =>
      let total := series_sum (map Amount st) in
      Some {| ov_total := total;
              ov_alert := budget_check user_budget total;
              ov_summary := sort_values_desc (groupby_sum st) |}
  end.

(** What one run has displayed when the block ran to its end. *)
Record report : Type := {
  total : pyfloat;
  budget_alert : option bool;
  summary : list (string * pyfloat);
  avg_expense : pyfloat;
  top_category : string;
  top_amount : pyfloat
}.

(** ** One run of the script *)

(** The widget whose click triggered the run, if one did. *)
Inductive action : Type :=
| NoClick
| ClickManual
| ClickAI
| ClickClear.

Record inputs : Type := {
  categories_input : string;
  amounts_input : string;
  user_budget : pyfloat;
  user_input : string;
  clicked : action
}.

(** What a run leaves behind: the session's expense list, the messages
    of the handlers, what the display block showed before the charts if
    the run came that far, and either the report of the display block or
    the exception that ended the run. *)
Record run_result : Type := {
  expenses : store;
  shown : list message;
  overview_shown : option overview;
  ending : result (option report)
}.

(** What the classifier hands back: an empty (falsy) result, or a result
    whose ["labels"] entry is the given list. *)
Inductive classification : Type :=
| NoResult
| Labels (labels : list string).

Section Script.

(** The zero-shot classifier: [classifier(text, candidate_labels=...)],
    which returns or raises. *)
Variable classifier : string -> list string -> result classification.

(** [ax.pie(sizes, labels=labels, ...)]: whether it draws.  When it does
    not, it raises [ValueError], which is what matplotlib raises on the
    sizes it refuses, a negative one among them. *)
Variable pie_draws : list pyfloat -> list string -> bool.

(** The block under [if st.session_state.expenses:]; [None] when the
    block is skipped.  The pie chart comes after the total, the budget
    note and the summary, and before the average and the top category. *)
Definition display (user_budget : pyfloat) (st : store)
  : result (option report) :=
  match overview_of user_budget st with
  | None => Ok None
  | Some ov =>
      if pie_draws (map snd (ov_summary ov)) (map fst (ov_summary ov)) then
        avg <- div_len (ov_total ov) (List.length st) ;;
        top <- iloc0 (ov_summary ov) ;;
        Ok (Some {| total := ov_total ov;
                    budget_alert := ov_alert ov;
                    summary := ov_summary ov;
                    avg_expense := avg;
                    top_category := fst top;
                    top_amount := snd top |})
      else Raise ValueError
  end.

Definition classify_category (text : string) : result string :=
  r <- classifier text CATEGORY_LABELS ;;
  match r with
  | NoResult => Ok "Others"
  | Labels labels => iloc0 labels
  end.

(** The body of the "Add AI-Predicted Expense" button. *)
Definition add_ai (text : string) (st : store)
  : result (store * list message) :=
  amount <- extract_amount text ;;
  category <- classify_category text ;;
  Ok (st ++ [{| Description := text;
                Amount := amount;
                Category := category |}],
      [AiAdded amount category]).

Definition is_manual (a : action) : bool :=
  match a with ClickManual => true | _ => false end.

Definition is_ai (a : action) : bool :=
  match a with ClickAI => true | _ => false end.

Definition is_clear (a : action) : bool :=
  match a with ClickClear => true | _ => false end.

Definition non_empty (s : string) : bool :=
  match s with EmptyString => false | _ => true end.

Definition run (inp : inputs) (st0 : store) : run_result :=
  let (st1, m1) :=
    if is_manual (clicked inp)
    then add_manual (categories_input inp) (amounts_input inp) st0
    else (st0, []) in
  match
    (if is_ai (clicked inp) && non_empty (user_input inp)
     then add_ai (user_input inp) st1
     else Ok (st1, []))
  with
  | Raise e =>
      {| expenses := st1; shown := m1; overview_shown := None;
         ending := Raise e |}
  | Ok (st2, m2) =>
      let (st3, m3) :=
        if is_clear (clicked inp) then ([], [AllCleared])
        else (st2, []) in
      {| expenses := st3;
         shown := m1 ++ m2 ++ m3;
         overview_shown := overview_of (user_budget inp) st3;
         ending := display (user_budget inp) st3 |}
  end.

(** The expense list after a sequence of runs. *)
Definition session (runs : list inputs) (st : store) : store :=
  fold_left (fun s inp => expenses (run inp s)) runs st.

End Script.

(** * The vocabulary of the properties *)

(** ** Digits and numbers in a text *)

Definition not_digit (c : ascii) : bool := negb (is_digit c).

Definition all_digits (s : string) : Prop := forallb_str is_digit s = true.

Definition no_digit (s : string) : Prop := forallb_str not_digit s = true.

(** The head of [s] is not a digit ([s] may be empty). *)
Definition stops_digits (s : string) : Prop :=
  match s with
  | EmptyString => True
  | String c _ => is_digit c = false
  end.

(** Group 1 as the spec words it: the number that starts at the first
    digit of the text. *)
Definition first_number (s : string) : option string :=
  number_at (drop_while not_digit s).

Definition number_char (c : ascii) : bool := is_digit c || is_separator c.

(** ** Amounts *)

Definition non_negative (x : pyfloat) : Prop := fgeb x fzero = true.

(** ** The summary *)

Definition desc (x y : string * pyfloat) : Prop :=
  before (snd x) (snd y) = true.

(** [a >= b] as Python compares floats, or [b] is NaN: how two amounts
    stand in a column in descending order, the NaN entries last. *)
Definition descending (a b : pyfloat) : Prop :=
  is_nan b = true \/ fgeb a b = true.

(** The summary a store is shown with. *)
Definition summary_of (st : store) : list (string * pyfloat) :=
  sort_values_desc (groupby_sum st).

(** [rows] is a summary of [st]: one row per category of the store, each
    with the sum of the amounts of that category, taken in the order of
    the store, the rows in descending order of their sums. *)
Definition summarises (st : store) (rows : list (string * pyfloat)) : Prop :=
  NoDup (map fst rows) /\
  (forall k, In k (map fst rows) <-> exists r, In r st /\ Category r = k) /\
  (forall k v, In (k, v) rows ->
               v = group_sum (map Amount (group_rows k st))) /\
  StronglySorted (fun x y => descending (snd x) (snd y)) rows.

(** What the display block reports about a store when it runs to its
    end. *)
Definition aggregates (st : store) (rep : report) : Prop :=
  total rep = series_sum (map Amount st) /\
  summarises st (summary rep) /\
  div_len (total rep) (List.length st) = Ok (avg_expense rep) /\
  hd_error (summary rep) = Some (top_category rep, top_amount rep) /\
  Forall (fun row => descending (top_amount rep) (snd row)) (summary rep).

(** ** Failures of the AI entry *)

(** The AI button was clicked on a text that is not empty, and the
    extraction or the classification raises [e]. *)
Definition ai_fails
  (classifier : string -> list string -> result classification)
  (inp : inputs) (e : exn) : Prop :=
  clicked inp = ClickAI /\ user_input inp <> "" /\
  (extract_amount (user_input inp) = Raise e \/
   exists a, extract_amount (user_input inp) = Ok a /\
     (classifier (user_input inp) CATEGORY_LABELS = Raise e \/
      classifier (user_input inp) CATEGORY_LABELS = Ok (Labels []) /\
      e = IndexError)).

(** ** The store invariant *)

Definition record_ok (r : expense) : Prop :=
  non_negative (Amount r) /\ Category r <> "".

Definition store_ok (st : store) : Prop := Forall record_ok st.

(** A manual submission whose fields respect the invariant: no category
    is empty once trimmed, and no amount that parses is negative or NaN. *)
Definition clean_manual (inp : inputs) : Prop :=
  Forall (fun c => strip c <> "") (split_comma (categories_input inp)) /\
  Forall (fun f => forall a, float (strip f) = Ok a -> non_negative a)
         (split_comma (amounts_input inp)).

(** The classifier never puts the empty string first among its labels. *)
Definition labels_named
  (classifier : string -> list string -> result classification) : Prop :=
  forall text l ls, classifier text CATEGORY_LABELS = Ok (Labels (l :: ls)) ->
                    l <> "".

(** ** Manual fields and the origin of records *)

(** Every element of the amounts field is accepted by [float]. *)
Definition all_parse (fields : list string) : Prop :=
  Forall (fun f => exists a, float (strip f) = Ok a) fields.

(** The record reads as one the manual handler builds. *)
Definition manual_shaped (r : expense) : Prop :=
  Description r = ("Manual: " ++ Category r)%string.

(** The classifier only ever puts a candidate label first. *)
Definition answers_candidates
  (classifier : string -> list string -> result classification) : Prop :=
  forall text l ls, classifier text CATEGORY_LABELS = Ok (Labels (l :: ls)) ->
                    In l CATEGORY_LABELS.

(** ** Inputs used as examples *)

(** A run triggered by the manual button, the other widgets at the
    values the script gives them at start. *)
Definition manual_click (cats amts : string) : inputs :=
  {| categories_input := cats;
     amounts_input := amts;
     user_budget := Fin 1000;
     user_input := "";
     clicked := ClickManual |}.

Definition ai_click (text : string) : inputs :=
  {| categories_input := "Food, Transport, Entertainment";
     amounts_input := "500, 200, 150";
     user_budget := Fin 1000;
     user_input := text;
     clicked := ClickAI |}.

Definition clear_click : inputs :=
  {| categories_input := "Food, Transport, Entertainment";
     amounts_input := "500, 200, 150";
     user_budget := Fin 1000;
     user_input := "";
     clicked := ClickClear |}.

(** Test doubles for the classifier: one that answers, one that hands
    back nothing, one that fails. *)
Definition healthcare_classifier (text : string) (labels : list string)
  : result classification :=
  Ok (Labels ["Healthcare"; "Others"; "Shopping"; "Food"; "Utilities";
              "Transport"; "Entertainment"]).

Definition silent_classifier (text : string) (labels : list string)
  : result classification :=
  Ok NoResult.

Definition failing_classifier (text : string) (labels : list string)
  : result classification :=
  Raise CollaboratorError.

Definition sample_store : store :=
  [ {| Description := "Manual: Food"; Amount := Fin 100; Category := "Food" |};
    {| Description := "Manual: Food"; Amount := Fin 50; Category := "Food" |};
    {| Description := "Manual: Transport"; Amount := Fin 25;
       Category := "Transport" |} ].


(** Stores on which the rounding of the sums shows: one large amount and
    two small ones, under two categories and under one. *)
Definition large_rent_store : store :=
  [ manual_record "Rent" (Fin 10000000000000000);
    manual_record "Food" (Fin 1);
    manual_record "Food" (Fin 1) ].

Definition large_food_store : store :=
  [ manual_record "Food" (Fin 10000000000000000);
    manual_record "Food" (Fin 1);
    manual_record "Food" (Fin 1) ].

(** A run of [n] zeros. *)
Fixpoint zeros (n : nat) : string :=
  match n with
  | O => EmptyString
  | S k => String "0" (zeros k)
  end.

(** Test doubles for the pie chart: one that always draws, and one that
    refuses a negative size, as the one of matplotlib does. *)
Definition drawing_pie (sizes : list pyfloat) (labels : list string) : bool :=
  true.

Definition refusing_pie (sizes : list pyfloat) (labels : list string) : bool :=
  negb (existsb (fun x => fltb x fzero) sizes).

(** * Properties *)

(** ** Splitting and parsing the manual fields *)

Lemma split_comma_not_nil (s : string) : split_comma s <> [].
Proof.
  induction s as [|c r IH]; simpl; [discriminate|].
  destruct (code c =? 44)%N; [discriminate|].
  destruct (split_comma r); discriminate.
Qed.

Lemma split_comma_length_pos (s : string) :
  (0 < List.length (split_comma s))%nat.
Proof.
  pose proof (split_comma_not_nil s) as H.
  destruct (split_comma s); [contradiction | simpl; lia].
Qed.

(** [parse_amounts] succeeds exactly when every field parses, and then
    returns the values field by field. *)
Lemma parse_amounts_Ok (fields : list string) (values : list pyfloat) :
  parse_amounts fields = Ok values <->
  Forall2 (fun f a => float (strip f) = Ok a) fields values.
Proof.
  revert values; induction fields as [|f fs IH]; intros values; simpl.
  - split; intros H.
    + injection H as <-. constructor.
    + inversion H. reflexivity.
  - destruct (float (strip f)) as [a|e] eqn:Ef; simpl.
    + destruct (parse_amounts fs) as [rest|e] eqn:Er; simpl.
      * split; intros H.
        -- injection H as <-. constructor; [assumption|]. now apply IH.
        -- inversion H as [|? b ? bs Hf Hr]; subst.
           rewrite Ef in Hf. injection Hf as <-.
           apply IH in Hr. now injection Hr as <-.
      * split; intros H; [discriminate|].
        inversion H as [|? b ? bs Hf Hr]; subst.
        apply IH in Hr. discriminate.
    + split; intros H; [discriminate|].
      inversion H as [|? b ? bs Hf Hr]; subst.
      rewrite Ef in Hf. discriminate.
Qed.

Lemma parse_amounts_length (fields : list string) (values : list pyfloat) :
  parse_amounts fields = Ok values ->
  List.length values = List.length fields.
Proof.
  intros H. apply parse_amounts_Ok in H.
  symmetry. eapply Forall2_length. exact H.
Qed.

(** One field that does not parse makes the comprehension raise. *)
Lemma parse_amounts_Raise (fields : list string) (f : string) (e : exn) :
  In f fields -> float (strip f) = Raise e ->
  exists e', parse_amounts fields = Raise e'.
Proof.
  induction fields as [|g gs IH]; simpl; [contradiction|].
  intros [-> | Hin] Hf.
  - rewrite Hf. simpl. now exists e.
  - destruct (float (strip g)) as [a|e1]; simpl; [|now exists e1].
    destruct (IH Hin Hf) as [e' ->]. simpl. now exists e'.
Qed.

(** [float] raises nothing but [ValueError]: the [except ValueError] of
    the manual handler catches every failure of the comprehension. *)
Lemma float_raises_ValueError (s : string) (e : exn) :
  float s = Raise e -> e = ValueError.
Proof.
  unfold float.
  destruct (if forallb_str _ s then _ else _) as [s1|]; [|congruence].
  destruct (take_sign _) as [neg s3].
  destruct (parse_decimal neg s3); [discriminate|].
  destruct (parse_inf_nan neg s3); congruence.
Qed.

Lemma parse_amounts_raises_ValueError (fields : list string) (e : exn) :
  parse_amounts fields = Raise e -> e = ValueError.
Proof.
  induction fields as [|f fs IH]; simpl; [discriminate|].
  destruct (float (strip f)) as [a|e1] eqn:Ef; simpl.
  - destruct (parse_amounts fs) as [rest|e2]; simpl; [discriminate|].
    intros H. injection H as <-. now apply IH.
  - intros H. injection H as <-. eapply float_raises_ValueError, Ef.
Qed.

(** ** Manual entry *)

Lemma add_manual_rejected (cats amts : string) (st : store) :
  (exists f e, In f (split_comma amts) /\ float (strip f) = Raise e) \/
  List.length (split_comma cats) <> List.length (split_comma amts) ->
  fst (add_manual cats amts st) = st /\
  (snd (add_manual cats amts st) = [CountsMustMatch] \/
   snd (add_manual cats amts st) = [AmountsMustBeNumeric; CountsMustMatch]).
Proof.
  intros H. unfold add_manual.
  destruct (parse_amounts (split_comma amts)) as [values|e] eqn:Ep.
  - destruct H as [(f & e & Hin & Hf) | Hlen].
    + destruct (parse_amounts_Raise _ _ _ Hin Hf) as [e' He']. congruence.
    + apply parse_amounts_length in Ep.
      rewrite length_map.
      destruct (Nat.eqb_spec (List.length (split_comma cats))
                  (List.length values)) as [E|E]; simpl.
      * exfalso. apply Hlen. congruence.
      * split; [reflexivity | now left].
  - rewrite length_map.
    pose proof (split_comma_length_pos cats) as Hpos.
    destruct (List.length (split_comma cats)) as [|n]; [lia|].
    simpl. split; [reflexivity | now right].
Qed.

Lemma add_manual_accepted (cats amts : string) (st : store)
  (values : list pyfloat) :
  Forall2 (fun f a => float (strip f) = Ok a) (split_comma amts) values ->
  List.length (split_comma cats) = List.length (split_comma amts) ->
  add_manual cats amts st =
  (st ++ manual_records (map strip (split_comma cats)) values,
   [ManualAdded]).
Proof.
  intros Hv Hlen. unfold add_manual.
  pose proof (Forall2_length Hv) as Hl.
  apply parse_amounts_Ok in Hv. rewrite Hv.
  rewrite length_map.
  destruct (Nat.eqb_spec (List.length (split_comma cats))
              (List.length values)) as [E|E]; simpl.
  - reflexivity.
  - exfalso. apply E. congruence.
Qed.

(** ** Characters *)

Ltac each_char c :=
  destruct c as [[] [] [] [] [] [] [] []]; vm_compute;
  try discriminate; try (intros; discriminate); auto.

Lemma digit_char (c : ascii) :
  is_digit c = true ->
  is_space c = false /\ is_cspace c = false /\ is_separator c = false /\
  (code c =? 95)%N = false /\ (code c =? 45)%N = false /\
  (code c =? 43)%N = false /\ (code c =? 46)%N = false.
Proof. each_char c; intros _; repeat split. Qed.

Lemma space_not_digit (c : ascii) : is_space c = true -> is_digit c = false.
Proof. each_char c. Qed.

Lemma separator_char (c : ascii) :
  is_separator c = true ->
  (c = "."%char \/ c = ","%char) /\ is_digit c = false /\
  is_cspace c = false /\ (code c =? 95)%N = false.
Proof. each_char c; intros _; repeat split; auto. Qed.

Lemma digit_no_marker (c : ascii) (r : string) :
  is_digit c = true ->
  strip_prefix rupee (String c r) = None /\
  strip_prefix "INR" (String c r) = None.
Proof. each_char c. Qed.

Lemma digit_no_inf_nan (c : ascii) (r : string) (neg : bool) :
  is_digit c = true -> parse_inf_nan neg (String c r) = None.
Proof.
  destruct c as [[] [] [] [] [] [] [] []]; intros H; vm_compute in H;
    try discriminate H; reflexivity.
Qed.

(** ** Strings of digits *)

Lemma append_empty_r (s : string) : (s ++ "")%string = s.
Proof. induction s as [|c r IH]; simpl; [reflexivity | now rewrite IH]. Qed.

Lemma take_digits_spec (s d r : string) :
  take_digits s = (d, r) ->
  s = (d ++ r)%string /\ all_digits d /\ stops_digits r.
Proof.
  revert d r; induction s as [|c s IH]; intros d r; simpl.
  - intros [= <- <-]. repeat split.
  - destruct (is_digit c) eqn:D.
    + destruct (take_digits s) as [d' r'] eqn:E. intros [= <- <-].
      destruct (IH _ _ eq_refl) as (-> & Hd & Hr).
      repeat split; [|assumption]. unfold all_digits. simpl. now rewrite D.
    + intros [= <- <-]. repeat split. exact D.
Qed.

Lemma take_digits_app (d r : string) :
  all_digits d -> stops_digits r -> take_digits (d ++ r) = (d, r).
Proof.
  unfold all_digits. induction d as [|c d IH]; simpl; intros Hd Hr.
  - destruct r as [|c r]; [reflexivity|]. simpl in *. now rewrite Hr.
  - apply andb_prop in Hd as [Hc Hd]. rewrite Hc, (IH Hd Hr). reflexivity.
Qed.

Lemma drop_while_end_all (p : ascii -> bool) (s : string) :
  forallb_str (fun c => negb (p c)) s = true -> drop_while_end p s = s.
Proof.
  induction s as [|c r IH]; simpl; [reflexivity|].
  intros H. apply andb_prop in H as [Hc Hr]. rewrite (IH Hr).
  destruct r; [|reflexivity].
  destruct (p c); [discriminate | reflexivity].
Qed.

Lemma forallb_str_impl (p q : ascii -> bool) (s : string) :
  (forall c, p c = true -> q c = true) ->
  forallb_str p s = true -> forallb_str q s = true.
Proof.
  intros Hpq. induction s as [|c r IH]; simpl; [reflexivity|].
  intros H. apply andb_prop in H as [Hc Hr].
  now rewrite (Hpq _ Hc), (IH Hr).
Qed.

Lemma forallb_str_app (p : ascii -> bool) (s t : string) :
  forallb_str p (s ++ t) = forallb_str p s && forallb_str p t.
Proof.
  induction s as [|c r IH]; simpl; [reflexivity|].
  now rewrite IH, andb_assoc.
Qed.

(** ** The amount extractor: where group 1 lies *)

Lemma number_at_digit (c : ascii) (r : string) :
  is_digit c = true -> exists g, number_at (String c r) = Some g.
Proof.
  intros D. unfold number_at. simpl. rewrite D.
  destruct (take_digits r) as [d r1].
  destruct r1 as [|c1 r2]; [eauto|].
  destruct (is_separator c1); [|eauto].
  destruct (take_digits r2). eauto.
Qed.

Lemma number_at_head (s g : string) :
  number_at s = Some g ->
  exists c r, s = String c r /\ is_digit c = true.
Proof.
  destruct s as [|c r]; [discriminate|].
  unfold number_at. simpl.
  destruct (is_digit c) eqn:D; [eauto | discriminate].
Qed.

Lemma first_number_digit (c : ascii) (r : string) :
  is_digit c = true -> first_number (String c r) = number_at (String c r).
Proof.
  intros D. unfold first_number. simpl. unfold not_digit. now rewrite D.
Qed.

Lemma first_number_skip (c : ascii) (r : string) :
  is_digit c = false -> first_number (String c r) = first_number r.
Proof.
  intros D. unfold first_number. simpl. unfold not_digit. now rewrite D.
Qed.

Lemma first_number_skip_prefix (m r : string) :
  no_digit m -> first_number (m ++ r) = first_number r.
Proof.
  unfold no_digit. induction m as [|c m IH]; simpl; [reflexivity|].
  intros H. apply andb_prop in H as [Hc Hm].
  rewrite first_number_skip; [now apply IH|].
  unfold not_digit in Hc. now destruct (is_digit c).
Qed.

Lemma number_at_first (s g : string) :
  number_at s = Some g -> first_number s = Some g.
Proof.
  intros H. destruct (number_at_head _ _ H) as (c & r & -> & D).
  now rewrite first_number_digit.
Qed.

Lemma space_number_at_first (s g : string) :
  space_number_at s = Some g -> first_number s = Some g.
Proof.
  destruct s as [|c r]; simpl; [apply number_at_first|].
  destruct (is_space c) eqn:Sp; [|apply number_at_first].
  destruct (number_at r) as [g'|] eqn:N; [|apply number_at_first].
  intros [= <-]. rewrite first_number_skip by now apply space_not_digit.
  now apply number_at_first.
Qed.

Lemma strip_prefix_spec (m s r : string) :
  strip_prefix m s = Some r -> s = (m ++ r)%string.
Proof.
  revert s; induction m as [|a m IH]; intros s; simpl.
  - now intros [= ->].
  - destruct s as [|b s]; [discriminate|].
    destruct (Ascii.eqb_spec a b) as [->|]; [|discriminate].
    intros H. now rewrite (IH _ H).
Qed.

Lemma marker_at_first (m s g : string) :
  no_digit m -> marker_at m s = Some g -> first_number s = Some g.
Proof.
  intros Hm. unfold marker_at.
  destruct (strip_prefix m s) as [r|] eqn:E; [|discriminate].
  apply strip_prefix_spec in E as ->. intros H.
  rewrite first_number_skip_prefix by assumption.
  now apply space_number_at_first.
Qed.

Lemma pattern_at_first (s g : string) :
  pattern_at s = Some g -> first_number s = Some g.
Proof.
  unfold pattern_at.
  destruct (marker_at rupee s) as [g1|] eqn:M1.
  - intros [= <-]. now apply (marker_at_first rupee).
  - destruct (marker_at "INR" s) as [g2|] eqn:M2.
    + intros [= <-]. now apply (marker_at_first "INR").
    + apply space_number_at_first.
Qed.

Lemma pattern_at_digit (c : ascii) (r : string) :
  is_digit c = true -> pattern_at (String c r) = number_at (String c r).
Proof.
  intros D. unfold pattern_at, marker_at.
  destruct (digit_no_marker c r D) as [-> ->].
  destruct (digit_char c D) as (Sp & _).
  unfold space_number_at. now rewrite Sp.
Qed.

Lemma re_search_cons (c : ascii) (r : string) :
  re_search (String c r) =
  match pattern_at (String c r) with
  | Some g => Some g
  | None => re_search r
  end.
Proof. reflexivity. Qed.

(** The search returns the number at the first digit of the text, and
    nothing when the text has no digit. *)
Lemma re_search_first_number (s : string) : re_search s = first_number s.
Proof.
  induction s as [|c r IH]; [reflexivity|].
  rewrite re_search_cons.
  destruct (is_digit c) eqn:D.
  - rewrite pattern_at_digit, first_number_digit by assumption.
    destruct (number_at_digit c r D) as [g ->]. reflexivity.
  - destruct (pattern_at (String c r)) as [g|] eqn:P.
    + symmetry. now apply pattern_at_first.
    + rewrite IH. symmetry. now apply first_number_skip.
Qed.

Lemma drop_while_no_digit (s : string) :
  no_digit s -> drop_while not_digit s = "".
Proof.
  unfold no_digit. induction s as [|c r IH]; simpl; [reflexivity|].
  intros H. apply andb_prop in H as [Hc Hr]. now rewrite Hc, IH.
Qed.

Lemma re_search_None (s : string) : re_search s = None <-> no_digit s.
Proof.
  rewrite re_search_first_number. unfold first_number, no_digit.
  induction s as [|c r IH]; simpl; [tauto|].
  unfold not_digit at 1 3. destruct (is_digit c) eqn:D; simpl.
  - split; [|discriminate].
    destruct (number_at_digit c r D) as [g ->]. discriminate.
  - exact IH.
Qed.

(** ** The amount extractor: what group 1 looks like and what [float]
    makes of it *)

Lemma number_at_shape (s g : string) :
  number_at s = Some g ->
  exists d1, all_digits d1 /\ d1 <> "" /\
    (g = d1 \/
     exists c d2, is_separator c = true /\ all_digits d2 /\
                  g = (d1 ++ String c d2)%string).
Proof.
  unfold number_at.
  destruct (take_digits s) as [d1 r1] eqn:E1.
  apply take_digits_spec in E1 as (_ & Hd1 & _).
  destruct d1 as [|a d1]; [discriminate|].
  intros H. exists (String a d1). split; [assumption|]. split; [discriminate|].
  destruct r1 as [|c r2]; [left; congruence|].
  destruct (is_separator c) eqn:Sep; [|left; congruence].
  destruct (take_digits r2) as [d2 r3] eqn:E2.
  apply take_digits_spec in E2 as (_ & Hd2 & _).
  right. exists c, d2. repeat split; try assumption. congruence.
Qed.

(** The number read when digits are followed by something that is
    neither a digit nor a separator: the digits, whatever comes later. *)
Lemma number_at_integer (d tail : string) :
  all_digits d -> d <> "" -> stops_digits tail ->
  match tail with
  | String c _ => is_separator c = false
  | EmptyString => True
  end ->
  number_at (d ++ tail) = Some d.
Proof.
  intros Hd Hne Hstop Hsep. unfold number_at.
  rewrite (take_digits_app _ _ Hd Hstop).
  destruct d as [|a d]; [contradiction|].
  destruct tail as [|c r]; [reflexivity|]. now rewrite Hsep.
Qed.

(** The number read when the digits are followed by a separator: the
    digits, the separator and the digits after it. *)
Lemma number_at_fraction (d1 d2 tail : string) (c : ascii) :
  all_digits d1 -> d1 <> "" -> is_separator c = true ->
  all_digits d2 -> stops_digits tail ->
  number_at (d1 ++ String c (d2 ++ tail)) = Some (d1 ++ String c d2)%string.
Proof.
  intros H1 Hne Hc H2 Hstop. unfold number_at.
  destruct (separator_char c Hc) as (_ & Dc & _).
  rewrite (take_digits_app d1 (String c (d2 ++ tail)) H1 Dc).
  destruct d1 as [|a d1]; [contradiction|].
  now rewrite Hc, (take_digits_app d2 tail H2 Hstop).
Qed.

Lemma float_plain (c : ascii) (r : string) :
  is_digit c = true -> forallb_str number_char r = true ->
  float (String c r) =
  match parse_decimal false (String c r) with
  | Some v => Ok v
  | None => Raise ValueError
  end.
Proof.
  intros D Hr. unfold float.
  destruct (digit_char c D) as (_ & Csp & _ & U & Minus & Plus & _).
  assert (Hu : forallb_str (fun x => negb (code x =? 95)%N) (String c r)
               = true).
  { simpl. rewrite U. simpl. revert Hr. apply forallb_str_impl.
    intros x Hx. unfold number_char in Hx.
    apply orb_prop in Hx as [Hx|Hx].
    - destruct (digit_char x Hx) as (_ & _ & _ & -> & _). reflexivity.
    - destruct (separator_char x Hx) as (_ & _ & _ & ->). reflexivity. }
  rewrite Hu.
  assert (Hs : forallb_str (fun x => negb (is_cspace x)) (String c r)
               = true).
  { simpl. rewrite Csp. simpl. revert Hr. apply forallb_str_impl.
    intros x Hx. unfold number_char in Hx.
    apply orb_prop in Hx as [Hx|Hx].
    - destruct (digit_char x Hx) as (_ & -> & _). reflexivity.
    - destruct (separator_char x Hx) as (_ & _ & -> & _). reflexivity. }
  replace (drop_while is_cspace (String c r)) with (String c r)
    by (simpl; now rewrite Csp).
  rewrite (drop_while_end_all _ _ Hs).
  unfold take_sign. rewrite Minus, Plus.
  destruct (parse_decimal false (String c r)); [reflexivity|].
  now rewrite digit_no_inf_nan.
Qed.

Lemma parse_decimal_integer (neg : bool) (d : string) :
  all_digits d -> d <> "" ->
  parse_decimal neg d = Some (decimal neg (digits_value d) 0).
Proof.
  intros Hd Hne. unfold parse_decimal.
  rewrite <- (append_empty_r d) at 1.
  rewrite (take_digits_app d "" Hd I), append_empty_r.
  destruct d as [|a d]; [contradiction|]. reflexivity.
Qed.

Lemma parse_decimal_point (neg : bool) (d1 d2 : string) :
  all_digits d1 -> d1 <> "" -> all_digits d2 ->
  parse_decimal neg (d1 ++ String "." d2) =
  Some (decimal neg (digits_value (d1 ++ d2))
          (0 - Z.of_nat (String.length d2))).
Proof.
  intros H1 Hne H2. unfold parse_decimal.
  rewrite (take_digits_app d1 (String "." d2) H1 eq_refl).
  change (code "." =? 46)%N with true. cbv iota.
  rewrite <- (append_empty_r d2) at 1.
  rewrite (take_digits_app d2 "" H2 I).
  destruct d1 as [|a d1]; [contradiction|]. reflexivity.
Qed.

Lemma parse_decimal_comma (neg : bool) (d1 d2 : string) :
  all_digits d1 -> d1 <> "" ->
  parse_decimal neg (d1 ++ String "," d2) = None.
Proof.
  intros H1 Hne. unfold parse_decimal.
  rewrite (take_digits_app d1 (String "," d2) H1 eq_refl).
  change (code "," =? 46)%N with false. cbv iota.
  rewrite append_empty_r.
  destruct d1 as [|a d1]; [contradiction|]. reflexivity.
Qed.

Lemma number_chars (d1 d2 : string) (c : ascii) :
  all_digits d1 -> is_separator c = true -> all_digits d2 ->
  forallb_str number_char (d1 ++ String c d2) = true.
Proof.
  intros H1 Hc H2. rewrite forallb_str_app. simpl.
  unfold number_char at 2. rewrite Hc, orb_true_r. simpl.
  apply andb_true_intro; split;
    (eapply forallb_str_impl; [|eassumption]);
    intros x Hx; unfold number_char; now rewrite Hx.
Qed.

(** [float] on the three shapes of group 1. *)
Lemma float_integer (d : string) :
  all_digits d -> d <> "" ->
  float d = Ok (decimal false (digits_value d) 0).
Proof.
  intros Hd Hne. destruct d as [|a d']; [contradiction|].
  unfold all_digits in Hd. simpl in Hd.
  apply andb_prop in Hd as [Ha Hd'].
  rewrite float_plain; [|assumption|].
  - rewrite parse_decimal_integer; [reflexivity| |discriminate].
    unfold all_digits. simpl. now rewrite Ha.
  - revert Hd'. apply forallb_str_impl. intros x Hx.
    unfold number_char. now rewrite Hx.
Qed.

Lemma float_point (d1 d2 : string) :
  all_digits d1 -> d1 <> "" -> all_digits d2 ->
  float (d1 ++ String "." d2) =
  Ok (decimal false (digits_value (d1 ++ d2))
        (0 - Z.of_nat (String.length d2))).
Proof.
  intros H1 Hne H2.
  pose proof (number_chars d1 d2 "." H1 eq_refl H2) as Hc.
  pose proof (parse_decimal_point false d1 d2 H1 Hne H2) as Hp.
  destruct d1 as [|a d1]; [contradiction|].
  simpl in Hc, Hp |- *. apply andb_prop in Hc as [Ha Hc].
  unfold all_digits in H1. simpl in H1. apply andb_prop in H1 as [Da _].
  rewrite float_plain by assumption. simpl. now rewrite Hp.
Qed.

Lemma float_comma (d1 d2 : string) :
  all_digits d1 -> d1 <> "" -> all_digits d2 ->
  float (d1 ++ String "," d2) = Raise ValueError.
Proof.
  intros H1 Hne H2.
  pose proof (number_chars d1 d2 "," H1 eq_refl H2) as Hc.
  pose proof (parse_decimal_comma false d1 d2 H1 Hne) as Hp.
  destruct d1 as [|a d1]; [contradiction|].
  simpl in Hc, Hp |- *. apply andb_prop in Hc as [Ha Hc].
  unfold all_digits in H1. simpl in H1. apply andb_prop in H1 as [Da _].
  rewrite float_plain by assumption. simpl. now rewrite Hp.
Qed.

(** ** Non-negative amounts *)

Lemma non_negative_Fin (q : Q) : non_negative (Fin q) <-> (0 <= q)%Q.
Proof.
  unfold non_negative, fgeb, fzero, fltb.
  rewrite negb_involutive. apply Qle_bool_iff.
Qed.

(** Rounding a positive quotient gives a number that is not negative,
    or the positive infinity. *)
Lemma round_pos_cases (n d : positive) :
  (exists q, round_pos false n d = Fin q /\ (0 <= q)%Q) \/
  round_pos false n d = Inf false.
Proof.
  unfold round_pos.
  set (ex := Z.max (binade n d - 52) (-1074)).
  set (num := (if ex <? 0 then Zpos n * 2 ^ (- ex) else Zpos n)%Z).
  set (den := (if ex <? 0 then Zpos d else Zpos d * 2 ^ ex)%Z).
  set (m' := (if ((den <? 2 * (num mod den))
                  || ((den =? 2 * (num mod den)) && Z.odd (num / den)))%Z
              then num / den + 1 else num / den)%Z).
  assert (Hnum : (0 <= num)%Z).
  { unfold num. destruct (ex <? 0)%Z; [|lia].
    apply Z.mul_nonneg_nonneg; [lia | apply Z.pow_nonneg; lia]. }
  assert (Hden : (0 < den)%Z).
  { unfold den. destruct (ex <? 0)%Z eqn:E; [lia|].
    apply Z.ltb_ge in E. apply Z.mul_pos_pos; [lia|].
    apply Z.pow_pos_nonneg; lia. }
  assert (Hm : (0 <= m')%Z).
  { pose proof (Z.div_pos num den Hnum Hden). unfold m'.
    destruct (_ || _); lia. }
  destruct (2 ^ 1024 <=? m' * 2 ^ ex)%Z; [now right|]. left.
  eexists. split; [reflexivity|]. rewrite Qred_correct.
  destruct (ex <? 0)%Z eqn:E.
  - unfold Qle. simpl. lia.
  - apply Z.ltb_ge in E. unfold Qle. simpl. rewrite Z.mul_1_r.
    apply Z.mul_nonneg_nonneg; [exact Hm | apply Z.pow_nonneg; lia].
Qed.

Lemma round64_cases (q : Q) :
  (0 <= q)%Q ->
  (exists q', round64 q = Fin q' /\ (0 <= q')%Q) \/ round64 q = Inf false.
Proof.
  intros H. unfold round64. destruct q as [[|n|n] d]; simpl.
  - left. exists 0%Q. split; [reflexivity | apply Qle_refl].
  - apply round_pos_cases.
  - exfalso. unfold Qle in H. simpl in H. lia.
Qed.

Lemma round64_non_negative (q : Q) : (0 <= q)%Q -> non_negative (round64 q).
Proof.
  intros H. destruct (round64_cases q H) as [(q' & -> & Hq) | ->].
  - now apply non_negative_Fin.
  - reflexivity.
Qed.

(** The number a digit string and an exponent stand for. *)
Lemma decimal_arg_non_negative (m : N) (e : Z) :
  (0 <= (if (0 <=? e)%Z then inject_Z (Z.of_N m * 10 ^ e)
         else Qmake (Z.of_N m) (Z.to_pos (10 ^ (- e)))))%Q.
Proof.
  destruct (0 <=? e)%Z eqn:E; unfold Qle; simpl; rewrite Z.mul_1_r.
  - apply Z.leb_le in E.
    apply Z.mul_nonneg_nonneg; [apply N2Z.is_nonneg|].
    now apply Z.pow_nonneg.
  - apply N2Z.is_nonneg.
Qed.

Lemma decimal_non_negative (m : N) (e : Z) : non_negative (decimal false m e).
Proof.
  unfold decimal. apply round64_non_negative, decimal_arg_non_negative.
Qed.

(** [extract_amount] returns a non-negative number or raises
    [ValueError]; it raises exactly when group 1 holds a comma. *)
Lemma extract_amount_cases (text : string) :
  (exists a, extract_amount text = Ok a /\ non_negative a) \/
  (extract_amount text = Raise ValueError /\
   exists d1 d2, re_search text = Some (d1 ++ String "," d2)%string).
Proof.
  unfold extract_amount.
  destruct (re_search text) as [g|] eqn:S.
  - rewrite re_search_first_number in S. unfold first_number in S.
    apply number_at_shape in S
      as (d1 & H1 & Hne & [-> | (c & d2 & Hc & H2 & ->)]).
    + left. rewrite float_integer by assumption.
      eexists. split; [reflexivity | apply decimal_non_negative].
    + destruct (separator_char c Hc) as ([-> | ->] & _).
      * left. rewrite float_point by assumption.
        eexists. split; [reflexivity | apply decimal_non_negative].
      * right. rewrite float_comma by assumption. eauto.
  - left. exists (Fin 0). split; [reflexivity|]. now apply non_negative_Fin.
Qed.

Lemma extract_amount_non_negative (text : string) (a : pyfloat) :
  extract_amount text = Ok a -> non_negative a.
Proof.
  intros H. destruct (extract_amount_cases text) as [(b & Hb & Hn) | (Hr & _)].
  - congruence.
  - congruence.
Qed.

(** ** The descending order of the summary *)

Lemma before_Fin (a b : Q) : before (Fin a) (Fin b) = true <-> (b <= a)%Q.
Proof.
  unfold before, fgeb, fltb. rewrite negb_involutive. apply Qle_bool_iff.
Qed.

Lemma before_total (a b : pyfloat) : before a b = false -> before b a = true.
Proof.
  destruct a as [p|[]|], b as [q|[]|]; try reflexivity; try discriminate.
  intros H. apply before_Fin.
  destruct (Qlt_le_dec p q) as [L|L]; [now apply Qlt_le_weak|].
  apply before_Fin in L. congruence.
Qed.

Lemma before_trans (a b c : pyfloat) :
  before a b = true -> before b c = true -> before a c = true.
Proof.
  destruct a as [p|[]|], b as [q|[]|], c as [r|[]|];
    try reflexivity; try discriminate.
  intros H1 H2. apply before_Fin in H1, H2. apply before_Fin.
  now apply Qle_trans with q.
Qed.

Lemma insert_desc_perm (x : string * pyfloat) (l : list (string * pyfloat)) :
  Permutation (x :: l) (insert_desc x l).
Proof.
  induction l as [|y l IH]; simpl; [reflexivity|].
  destruct (before (snd x) (snd y)); [reflexivity|].
  rewrite perm_swap. now constructor.
Qed.

Lemma sort_values_desc_perm (l : list (string * pyfloat)) :
  Permutation l (sort_values_desc l).
Proof.
  induction l as [|x l IH]; simpl; [constructor|].
  rewrite <- insert_desc_perm. now constructor.
Qed.

Lemma insert_desc_sorted (x : string * pyfloat) (l : list (string * pyfloat)) :
  StronglySorted desc l -> StronglySorted desc (insert_desc x l).
Proof.
  induction 1 as [|y l Hs IH Hy]; simpl.
  - constructor; constructor.
  - destruct (before (snd x) (snd y)) eqn:B.
    + constructor; [now constructor|].
      constructor; [exact B|].
      eapply Forall_impl; [|exact Hy].
      intros z Hz. unfold desc in *. now apply before_trans with (snd y).
    + constructor; [exact IH|].
      eapply Permutation_Forall; [apply insert_desc_perm|].
      constructor; [|exact Hy]. now apply before_total.
Qed.

Lemma sort_values_desc_sorted (l : list (string * pyfloat)) :
  StronglySorted desc (sort_values_desc l).
Proof.
  induction l as [|x l IH]; simpl; [constructor|].
  now apply insert_desc_sorted.
Qed.

(** ** The groups of the summary *)

Lemma insert_key_perm (k : string) (ks : list string) :
  Permutation (k :: ks) (insert_key k ks).
Proof.
  induction ks as [|k' ks IH]; simpl; [reflexivity|].
  destruct (String.leb k k'); [reflexivity|].
  rewrite perm_swap. now constructor.
Qed.

Lemma sort_keys_perm (ks : list string) : Permutation ks (sort_keys ks).
Proof.
  induction ks as [|k ks IH]; simpl; [constructor|].
  rewrite <- insert_key_perm. now constructor.
Qed.

Lemma group_keys_NoDup (st : store) : NoDup (group_keys st).
Proof.
  unfold group_keys. eapply Permutation_NoDup; [apply sort_keys_perm|].
  apply NoDup_nodup.
Qed.

Lemma group_keys_In (st : store) (k : string) :
  In k (group_keys st) <-> exists r, In r st /\ Category r = k.
Proof.
  unfold group_keys. split.
  - intros H. eapply Permutation_in in H;
      [|apply Permutation_sym, sort_keys_perm].
    apply nodup_In, in_map_iff in H as (r & E & Hr). eauto.
  - intros (r & Hr & <-).
    eapply Permutation_in; [apply sort_keys_perm|].
    apply nodup_In, in_map. exact Hr.
Qed.

Lemma groupby_sum_keys (st : store) : map fst (groupby_sum st) = group_keys st.
Proof.
  unfold groupby_sum. rewrite map_map. simpl. apply map_id.
Qed.

Lemma groupby_sum_In (st : store) (k : string) (v : pyfloat) :
  In (k, v) (groupby_sum st) ->
  v = group_sum (map Amount (group_rows k st)).
Proof.
  unfold groupby_sum. intros H.
  apply in_map_iff in H as (k' & E & _). now injection E as <- <-.
Qed.

Lemma summary_of_keys (st : store) :
  Permutation (group_keys st) (map fst (summary_of st)).
Proof.
  rewrite <- groupby_sum_keys. apply Permutation_map, sort_values_desc_perm.
Qed.

Lemma summary_of_not_nil (r : expense) (st : store) :
  summary_of (r :: st) <> [].
Proof.
  intros E.
  assert (H : In (Category r) (map fst (summary_of (r :: st)))).
  { eapply Permutation_in; [apply summary_of_keys|].
    apply group_keys_In. exists r. split; [now left | reflexivity]. }
  rewrite E in H. exact H.
Qed.

Lemma overview_of_non_empty (budget : pyfloat) (st : store) :
  st <> [] ->
  overview_of budget st =
  Some {| ov_total := series_sum (map Amount st);
          ov_alert := budget_check budget (series_sum (map Amount st));
          ov_summary := summary_of st |}.
Proof. destruct st as [|r st]; [contradiction | reflexivity]. Qed.

(** The display block on a store that is not empty: it ends at the pie
    chart with [ValueError], or reports these values. *)
Lemma display_non_empty
  (pie : list pyfloat -> list string -> bool) (budget : pyfloat) (st : store) :
  st <> [] ->
  exists top,
    hd_error (summary_of st) = Some top /\
    display pie budget st =
    if pie (map snd (summary_of st)) (map fst (summary_of st)) then
      Ok (Some {| total := series_sum (map Amount st);
                  budget_alert :=
                    budget_check budget (series_sum (map Amount st));
                  summary := summary_of st;
                  avg_expense :=
                    fdiv_count (series_sum (map Amount st)) (List.length st);
                  top_category := fst top;
                  top_amount := snd top |})
    else Raise ValueError.
Proof.
  intros Hne. unfold display. rewrite (overview_of_non_empty budget st Hne).
  cbn [ov_total ov_alert ov_summary].
  destruct st as [|r st]; [contradiction|].
  pose proof (summary_of_not_nil r st) as Hs.
  destruct (summary_of (r :: st)) as [|top rest] eqn:Es; [contradiction|].
  exists top. split; [reflexivity|].
  destruct (pie _ _); reflexivity.
Qed.

(** The display block raises nothing but the [ValueError] of the pie
    chart. *)
Lemma display_Raise
  (pie : list pyfloat -> list string -> bool) (budget : pyfloat) (st : store)
  (e : exn) :
  display pie budget st = Raise e <->
  st <> [] /\
  pie (map snd (summary_of st)) (map fst (summary_of st)) = false /\
  e = ValueError.
Proof.
  destruct st as [|r st].
  - split; [discriminate | intros [H _]; contradiction].
  - destruct (display_non_empty pie budget (r :: st)) as (top & _ & ->);
      [discriminate|].
    destruct (pie _ _); split.
    + discriminate.
    + intros (_ & H & _). discriminate.
    + intros [= <-]. repeat split. discriminate.
    + intros (_ & _ & ->). reflexivity.
Qed.

(** What the display block reports when it returns a report. *)
Lemma display_Some
  (pie : list pyfloat -> list string -> bool) (budget : pyfloat) (st : store)
  (rep : report) :
  display pie budget st = Ok (Some rep) <->
  st <> [] /\
  pie (map snd (summary_of st)) (map fst (summary_of st)) = true /\
  exists top,
    hd_error (summary_of st) = Some top /\
    rep = {| total := series_sum (map Amount st);
             budget_alert := budget_check budget (series_sum (map Amount st));
             summary := summary_of st;
             avg_expense :=
               fdiv_count (series_sum (map Amount st)) (List.length st);
             top_category := fst top;
             top_amount := snd top |}.
Proof.
  destruct st as [|r st].
  - split; [discriminate | intros [H _]; contradiction].
  - destruct (display_non_empty pie budget (r :: st)) as (top & Ht & ->);
      [discriminate|].
    destruct (pie _ _); split.
    + intros [= <-]. split; [discriminate|]. split; [reflexivity|].
      exists top. split; [exact Ht | reflexivity].
    + intros (_ & _ & top' & Ht' & ->). rewrite Ht in Ht'.
      now injection Ht' as <-.
    + discriminate.
    + intros (_ & H & _). discriminate.
Qed.

(** The display block gives no report exactly on the empty store. *)
Lemma display_None
  (pie : list pyfloat -> list string -> bool) (budget : pyfloat) (st : store) :
  display pie budget st = Ok None <-> st = [].
Proof.
  destruct st as [|r st].
  - split; reflexivity.
  - destruct (display_non_empty pie budget (r :: st)) as (top & _ & ->);
      [discriminate|].
    destruct (pie _ _); split; discriminate.
Qed.

(** ** One run, by the button clicked *)

Lemma run_manual
  (classifier : string -> list string -> result classification)
  (pie : list pyfloat -> list string -> bool)
  (inp : inputs) (st : store) :
  clicked inp = ClickManual ->
  expenses (run classifier pie inp st) =
    fst (add_manual (categories_input inp) (amounts_input inp) st) /\
  shown (run classifier pie inp st) =
    snd (add_manual (categories_input inp) (amounts_input inp) st).
Proof.
  intros Hc. unfold run. rewrite Hc. simpl.
  destruct (add_manual _ _ st) as [st1 m1]. simpl.
  now rewrite app_nil_r.
Qed.

Lemma run_ai
  (classifier : string -> list string -> result classification)
  (pie : list pyfloat -> list string -> bool)
  (inp : inputs) (st : store) :
  clicked inp = ClickAI -> user_input inp <> "" ->
  run classifier pie inp st =
  match add_ai classifier (user_input inp) st with
  | Raise e =>
      {| expenses := st; shown := []; overview_shown := None;
         ending := Raise e |}
  | Ok (st2, m2) =>
      {| expenses := st2;
         shown := m2 ++ [];
         overview_shown := overview_of (user_budget inp) st2;
         ending := display pie (user_budget inp) st2 |}
  end.
Proof.
  intros Hc Hne. unfold run. rewrite Hc. simpl.
  destruct (user_input inp) as [|c r]; [contradiction|]. simpl.
  destruct (add_ai classifier (String c r) st) as [[st2 m2]|e]; reflexivity.
Qed.

(** ** The store invariant *)

Lemma Forall2_In_r {A B : Type} (R : A -> B -> Prop) (l : list A)
  (l' : list B) (b : B) :
  Forall2 R l l' -> In b l' -> exists a, In a l /\ R a b.
Proof.
  induction 1 as [|x y l l' Hxy _ IH]; simpl; [contradiction|].
  intros [<- | Hin].
  - exists x. auto.
  - destruct (IH Hin) as (a & Ha & HR). exists a. auto.
Qed.

Lemma add_manual_ok (inp : inputs) (st : store) :
  clean_manual inp -> store_ok st ->
  store_ok (fst (add_manual (categories_input inp) (amounts_input inp) st)).
Proof.
  intros [Hc Ha] Hst. unfold add_manual.
  destruct (parse_amounts (split_comma (amounts_input inp)))
    as [values|e] eqn:Ep.
  - destruct (negb _); simpl; [exact Hst|].
    apply Forall_app. split; [exact Hst|].
    apply Forall_forall. intros r Hr. unfold manual_records in Hr.
    apply in_map_iff in Hr as ([c a] & <- & Hin). simpl.
    split; simpl.
    + apply in_combine_r in Hin. apply parse_amounts_Ok in Ep.
      destruct (Forall2_In_r _ _ _ _ Ep Hin) as (f & Hf & E).
      rewrite Forall_forall in Ha. now apply (Ha f Hf).
    + apply in_combine_l in Hin. apply in_map_iff in Hin as (f & <- & Hf).
      rewrite Forall_forall in Hc. now apply Hc.
  - destruct (negb _); simpl; [exact Hst|].
    unfold manual_records. rewrite combine_nil. simpl.
    now rewrite app_nil_r.
Qed.

Lemma add_ai_ok
  (classifier : string -> list string -> result classification)
  (text : string) (st st' : store) (ms : list message) :
  labels_named classifier -> store_ok st ->
  add_ai classifier text st = Ok (st', ms) -> store_ok st'.
Proof.
  intros Hl Hst. unfold add_ai, classify_category.
  destruct (extract_amount text) as [a|e] eqn:Ea; simpl; [|discriminate].
  destruct (classifier text CATEGORY_LABELS) as [[|labels]|e] eqn:Ec; simpl;
    [| |discriminate].
  - intros [= <- <-]. apply Forall_app. split; [exact Hst|].
    constructor; [|constructor]. split; simpl.
    + now apply extract_amount_non_negative with text.
    + discriminate.
  - destruct labels as [|l ls]; simpl; [discriminate|].
    intros [= <- <-]. apply Forall_app. split; [exact Hst|].
    constructor; [|constructor]. split; simpl.
    + now apply extract_amount_non_negative with text.
    + now apply (Hl text l ls).
Qed.

Lemma run_ok
  (classifier : string -> list string -> result classification)
  (pie : list pyfloat -> list string -> bool)
  (inp : inputs) (st : store) :
  labels_named classifier ->
  (clicked inp = ClickManual -> clean_manual inp) ->
  store_ok st -> store_ok (expenses (run classifier pie inp st)).
Proof.
  intros Hl Hm Hst. unfold run.
  destruct (clicked inp) eqn:Ec; simpl.
  - exact Hst.
  - pose proof (add_manual_ok inp st (Hm eq_refl) Hst) as H.
    destruct (add_manual _ _ st) as [st1 m1]. exact H.
  - destruct (non_empty (user_input inp)); simpl; [|exact Hst].
    destruct (add_ai classifier (user_input inp) st) as [[st2 m2]|e] eqn:Ea;
      simpl; [|exact Hst].
    now apply (add_ai_ok classifier (user_input inp) st st2 m2).
  - constructor.
Qed.

Lemma session_ok
  (classifier : string -> list string -> result classification)
  (pie : list pyfloat -> list string -> bool)
  (runs : list inputs) (st : store) :
  labels_named classifier ->
  Forall (fun inp => clicked inp = ClickManual -> clean_manual inp) runs ->
  store_ok st -> store_ok (session classifier pie runs st).
Proof.
  intros Hl Hruns. revert st.
  induction Hruns as [|inp runs Hinp _ IH]; intros st Hst; simpl.
  - exact Hst.
  - apply IH. now apply run_ok.
Qed.

(** C1, as stated, fails: the manual handler stores whatever parses.  One
    submission with the fields ["Food,"] and ["-5, 3"] leaves a record of
    amount [-5] and a record whose category is the empty string. *)
Lemma store_invariant_counterexample :
  session silent_classifier drawing_pie [manual_click "Food," "-5, 3"] [] =
    [manual_record "Food" (Fin (-5)); manual_record "" (Fin 3)] /\
  ~ Forall (fun r => non_negative (Amount r))
      (session silent_classifier drawing_pie [manual_click "Food," "-5, 3"] []) /\
  ~ Forall (fun r => Category r <> "")
      (session silent_classifier drawing_pie [manual_click "Food," "-5, 3"] []).
Proof.
  assert
    (E : session silent_classifier drawing_pie [manual_click "Food," "-5, 3"] [] =
         [manual_record "Food" (Fin (-5)); manual_record "" (Fin 3)])
    by (vm_compute; reflexivity).
  rewrite E. split; [reflexivity|]. split; intros H.
  - inversion H as [|? ? H1 _]. vm_compute in H1. discriminate.
  - inversion H as [|? ? _ H2]. inversion H2 as [|? ? H3 _]. now apply H3.
Qed.

(** C1, amended: starting from the empty store, after any sequence of
    runs (manual ingestion, AI ingestion, clear-all, or no click) every
    record has [amount >= 0] and a category that is not empty, provided
    that every manual submission of the sequence supplies categories that
    are not empty once trimmed and amounts that are not negative (the
    handler checks neither), and that the classifier's first label is
    never the empty string.  Amounts from AI ingestion are never negative. *)
Theorem store_invariant_amended
  (classifier : string -> list string -> result classification)
  (pie : list pyfloat -> list string -> bool)
  (runs : list inputs) :
  labels_named classifier ->
  Forall (fun inp => clicked inp = ClickManual -> clean_manual inp) runs ->
  store_ok (session classifier pie runs []).
Proof.
  intros Hl Hruns. apply session_ok; [assumption | assumption | constructor].
Qed.

Lemma store_invariant_amended_witness :
  store_ok
    (session healthcare_classifier drawing_pie
       [manual_click "Food, Transport" "100, 50";
        ai_click "Paid ₹600 for medicines";
        clear_click;
        ai_click "INR 45.50 taxi"] []).
Proof.
  apply (store_invariant_amended healthcare_classifier).
  - intros text l ls H. injection H as <- _. discriminate.
  - constructor.
    + intros _. split.
      * replace (split_comma (categories_input _))
          with ["Food"; " Transport"] by (vm_compute; reflexivity).
        repeat constructor; discriminate.
      * replace (split_comma (amounts_input _))
          with ["100"; " 50"] by (vm_compute; reflexivity).
        repeat apply Forall_cons; [| |apply Forall_nil].
        all: intros a H; vm_compute in H; injection H as <-; reflexivity.
    + constructor; [intros H; discriminate H|].
      constructor; [intros H; discriminate H|].
      constructor; [intros H; discriminate H|]. constructor.
Defined.

(** ** The amount extractor *)

Lemma extract_amount_first_integer (pre d tail : string) :
  no_digit pre -> all_digits d -> d <> "" -> stops_digits tail ->
  match tail with
  | String c _ => is_separator c = false
  | EmptyString => True
  end ->
  extract_amount (pre ++ d ++ tail) = float d.
Proof.
  intros Hpre Hd Hne Hstop Hsep. unfold extract_amount.
  rewrite re_search_first_number, first_number_skip_prefix by assumption.
  destruct d as [|a d'] eqn:E; [contradiction|]. rewrite <- E in *.
  assert (Ha : is_digit a = true).
  { rewrite E in Hd. unfold all_digits in Hd. simpl in Hd.
    now apply andb_prop in Hd as [Ha _]. }
  assert (F : first_number (d ++ tail) = number_at (d ++ tail)).
  { rewrite E. simpl. now apply first_number_digit. }
  now rewrite F, number_at_integer by assumption.
Qed.

Lemma re_search_fraction (pre d1 d2 tail : string) (c : ascii) :
  no_digit pre -> all_digits d1 -> d1 <> "" -> is_separator c = true ->
  all_digits d2 -> stops_digits tail ->
  re_search (pre ++ d1 ++ String c (d2 ++ tail)) =
  Some (d1 ++ String c d2)%string.
Proof.
  intros Hpre H1 Hne Hc H2 Hstop.
  rewrite re_search_first_number, first_number_skip_prefix by assumption.
  rewrite <- (number_at_fraction d1 d2 tail c) by assumption.
  destruct d1 as [|a d1]; [contradiction|].
  unfold all_digits in H1. simpl in H1. apply andb_prop in H1 as [Ha _].
  simpl. now apply first_number_digit.
Qed.

(** C2 does not hold of the code, which slips here.  The pattern takes
    [45,50] as group 1 of ["INR 45,50"], and [float("45,50")] raises
    [ValueError]: the comma is never turned into a point.  The run that
    submits this text ends with the exception and appends nothing.  The
    same happens for every text whose first number holds a comma, while a
    point there is parsed. *)
Theorem extract_amount_comma_raises :
  re_search "INR 45,50" = Some "45,50" /\
  float "45,50" = Raise ValueError /\
  extract_amount "INR 45,50" = Raise ValueError /\
  (forall classifier pie st,
     expenses (run classifier pie (ai_click "INR 45,50") st) = st /\
     ending (run classifier pie (ai_click "INR 45,50") st) = Raise ValueError) /\
  (forall pre d1 d2 tail,
     no_digit pre -> all_digits d1 -> d1 <> "" -> all_digits d2 ->
     stops_digits tail ->
     extract_amount (pre ++ d1 ++ String "," (d2 ++ tail))
     = Raise ValueError /\
     extract_amount (pre ++ d1 ++ String "." (d2 ++ tail))
     = Ok (decimal false (digits_value (d1 ++ d2))
             (0 - Z.of_nat (String.length d2)))).
Proof.
  assert (E : extract_amount "INR 45,50" = Raise ValueError)
    by (vm_compute; reflexivity).
  split; [vm_compute; reflexivity|].
  split; [vm_compute; reflexivity|].
  split; [exact E|].
  split.
  - intros classifier pie st.
    rewrite (run_ai classifier pie (ai_click "INR 45,50") st eq_refl)
      by discriminate.
    unfold add_ai. change (user_input (ai_click "INR 45,50")) with "INR 45,50".
    rewrite E. split; reflexivity.
  - intros pre d1 d2 tail Hpre H1 Hne H2 Hstop. unfold extract_amount.
    rewrite !re_search_fraction by (assumption || reflexivity).
    rewrite float_comma, float_point by assumption.
    split; reflexivity.
Qed.

(** C8: the reference values of the extractor; a text without a match
    (which is a text without a digit) gives [0.0]; and of several numbers
    only the first is used: digits that follow a digit-free prefix, and
    are followed by neither a digit nor a separator, give what [float]
    makes of them alone, whatever the rest of the text holds. *)
Theorem extract_amount_reference :
  extract_amount "Paid ₹600 for medicines" = Ok (Fin 600) /\
  extract_amount "no numbers here" = Ok (Fin 0) /\
  extract_amount "INR 45.50 taxi" = Ok (Fin (Qred 45.5)) /\
  extract_amount "Paid 600 for medicines and 45.50 for a taxi" = Ok (Fin 600) /\
  (forall text, re_search text = None <-> no_digit text) /\
  (forall text, re_search text = None -> extract_amount text = Ok (Fin 0)) /\
  (forall text, re_search text = first_number text) /\
  (forall pre d tail,
      no_digit pre -> all_digits d -> d <> "" -> stops_digits tail ->
      match tail with
      | String c _ => is_separator c = false
      | EmptyString => True
      end ->
      extract_amount (pre ++ d ++ tail) = float d).
Proof.
  split; [vm_compute; reflexivity|].
  split; [vm_compute; reflexivity|].
  split; [vm_compute; reflexivity|].
  split; [vm_compute; reflexivity|].
  split; [exact re_search_None|].
  split; [intros text H; unfold extract_amount; now rewrite H|].
  split; [exact re_search_first_number|].
  exact extract_amount_first_integer.
Qed.

Lemma extract_amount_reference_witness :
  extract_amount ("Paid ₹" ++ "600" ++ " for medicines and 45.50 for a taxi")
  = float "600".
Proof.
  apply (proj2 (proj2 (proj2 (proj2 (proj2 (proj2
           (proj2 extract_amount_reference)))))));
    try reflexivity; discriminate.
Defined.

(** ** AI entry and the classifier *)

(** A result that is not empty but lists no label is not covered by the
    fallback: taking its first label raises. *)
Lemma classify_category_no_labels
  (classifier : string -> list string -> result classification)
  (text : string) :
  classifier text CATEGORY_LABELS = Ok (Labels []) ->
  classify_category classifier text = Raise IndexError.
Proof. intros H. unfold classify_category. now rewrite H. Qed.

(** The AI entry raises when the extraction raises, when the classifier
    raises, and when the classifier's result lists no label. *)
Lemma add_ai_Raise
  (classifier : string -> list string -> result classification)
  (text : string) (st : store) (e : exn) :
  add_ai classifier text st = Raise e <->
  extract_amount text = Raise e \/
  exists a, extract_amount text = Ok a /\
    (classifier text CATEGORY_LABELS = Raise e \/
     classifier text CATEGORY_LABELS = Ok (Labels []) /\ e = IndexError).
Proof.
  unfold add_ai, classify_category.
  destruct (extract_amount text) as [a|e1]; simpl.
  - destruct (classifier text CATEGORY_LABELS) as [[|[|l ls]]|e2]; simpl.
    + split; [discriminate|].
      intros [H|(b & _ & [H|[H _]])]; discriminate.
    + split.
      * intros [= <-]. right. exists a. split; [reflexivity|]. now right.
      * intros [H|(b & _ & [H|[_ ->]])]; try discriminate. reflexivity.
    + split; [discriminate|].
      intros [H|(b & _ & [H|[H _]])]; discriminate.
    + split.
      * intros [= <-]. right. exists a. split; [reflexivity|]. now left.
      * intros [H|(b & _ & [H|[H _]])]; try discriminate.
        now injection H as ->.
  - split.
    + intros [= <-]. now left.
    + intros [H|(b & H & _)]; [now injection H as -> | discriminate].
Qed.

(** C3, as stated, fails: a classifier that raises ends the run with its
    exception, and no record is appended. *)
Lemma classifier_failure_counterexample :
  extract_amount "Paid 600 for medicines" = Ok (Fin 600) /\
  expenses
    (run failing_classifier drawing_pie (ai_click "Paid 600 for medicines") [])
  = [] /\
  ending
    (run failing_classifier drawing_pie (ai_click "Paid 600 for medicines") [])
  = Raise CollaboratorError.
Proof. repeat split; vm_compute; reflexivity. Qed.

(** C3, amended: for every AI-entry submission whose amount extraction
    succeeds, if the classifier hands back an empty result the category is
    ["Others"], the record with the extracted amount is appended and the
    run goes on to the display block, which it enters with the store so
    extended; if the classifier raises, the exception ends the run and the
    store is left as it was. *)
Theorem classifier_fallback_amended
  (classifier : string -> list string -> result classification)
  (pie : list pyfloat -> list string -> bool)
  (inp : inputs) (st : store) (a : pyfloat) :
  clicked inp = ClickAI -> user_input inp <> "" ->
  extract_amount (user_input inp) = Ok a ->
  (classifier (user_input inp) CATEGORY_LABELS = Ok NoResult ->
   classify_category classifier (user_input inp) = Ok "Others" /\
   expenses (run classifier pie inp st) =
     st ++ [{| Description := user_input inp;
               Amount := a;
               Category := "Others" |}] /\
   shown (run classifier pie inp st) = [AiAdded a "Others"] /\
   ending (run classifier pie inp st) =
     display pie (user_budget inp)
       (st ++ [{| Description := user_input inp;
                  Amount := a;
                  Category := "Others" |}])) /\
  (forall e, classifier (user_input inp) CATEGORY_LABELS = Raise e ->
   expenses (run classifier pie inp st) = st /\
   shown (run classifier pie inp st) = [] /\
   ending (run classifier pie inp st) = Raise e).
Proof.
  intros Hc Hne Ha.
  rewrite (run_ai classifier pie inp st Hc Hne).
  unfold add_ai, classify_category. rewrite Ha. unfold bind at 1.
  split.
  - intros ->. unfold bind. cbn [expenses shown ending app].
    repeat split.
  - intros e ->. unfold bind. repeat split.
Qed.

Lemma classifier_fallback_amended_witness :
  expenses
    (run silent_classifier drawing_pie (ai_click "Paid ₹600 for medicines") [])
  = [{| Description := "Paid ₹600 for medicines";
        Amount := Fin 600;
        Category := "Others" |}].
Proof.
  refine (proj1 (proj2 (proj1
    (classifier_fallback_amended silent_classifier drawing_pie
       (ai_click "Paid ₹600 for medicines") [] (Fin 600) _ _ _) _))).
  - reflexivity.
  - discriminate.
  - vm_compute; reflexivity.
  - reflexivity.
Defined.

(** ** Manual entry *)

(** C4: when an amount element does not parse as a number, or when the
    two fields do not hold the same number of elements, the manual
    submission reports a validation error and leaves the store exactly as
    it was. *)
Theorem manual_validation_atomic
  (classifier : string -> list string -> result classification)
  (pie : list pyfloat -> list string -> bool)
  (inp : inputs) (st : store) :
  clicked inp = ClickManual ->
  (exists f e, In f (split_comma (amounts_input inp)) /\
               float (strip f) = Raise e) \/
  List.length (split_comma (categories_input inp)) <>
  List.length (split_comma (amounts_input inp)) ->
  expenses (run classifier pie inp st) = st /\
  existsb is_error (shown (run classifier pie inp st)) = true /\
  ~ In ManualAdded (shown (run classifier pie inp st)).
Proof.
  intros Hc H.
  destruct (run_manual classifier pie inp st Hc) as [-> ->].
  destruct (add_manual_rejected _ _ st H) as [E1 [E2|E2]];
    rewrite E2; (split; [exact E1|]); (split; [reflexivity|]);
    simpl; intuition discriminate.
Qed.

Lemma manual_validation_atomic_witness :
  expenses
    (run silent_classifier drawing_pie (manual_click "Food, Transport" "100")
       sample_store) = sample_store /\
  expenses
    (run silent_classifier drawing_pie
       (manual_click "Food, Transport" "100, x") sample_store) = sample_store.
Proof.
  split.
  - refine (proj1 (manual_validation_atomic silent_classifier drawing_pie
                     (manual_click "Food, Transport" "100") sample_store
                     eq_refl _)).
    right. vm_compute. discriminate.
  - refine (proj1 (manual_validation_atomic silent_classifier drawing_pie
                     (manual_click "Food, Transport" "100, x") sample_store
                     eq_refl _)).
    left. exists " x", ValueError. split; [vm_compute; auto|].
    vm_compute. reflexivity.
Defined.

(** C6: when the two fields hold the same number of elements and every
    amount element parses, the manual submission appends one record per
    (category, amount) pair, in the order of the fields, with the
    description ["Manual: "] followed by the category, the parsed amount,
    and the category as typed (trimmed, and not checked against the fixed
    labels); the records already in the store stay in place. *)
Theorem manual_ingestion_success
  (classifier : string -> list string -> result classification)
  (pie : list pyfloat -> list string -> bool)
  (inp : inputs) (st : store) (values : list pyfloat) :
  clicked inp = ClickManual ->
  Forall2 (fun f a => float (strip f) = Ok a)
          (split_comma (amounts_input inp)) values ->
  List.length (split_comma (categories_input inp)) =
  List.length (split_comma (amounts_input inp)) ->
  let cats := map strip (split_comma (categories_input inp)) in
  expenses (run classifier pie inp st) =
    st ++ map (fun p => {| Description := ("Manual: " ++ fst p)%string;
                           Amount := snd p;
                           Category := fst p |})
              (combine cats values) /\
  List.length (combine cats values) =
    List.length (split_comma (categories_input inp)) /\
  map fst (combine cats values) = cats /\
  map snd (combine cats values) = values /\
  shown (run classifier pie inp st) = [ManualAdded].
Proof.
  intros Hc Hv Hlen cats.
  destruct (run_manual classifier pie inp st Hc) as [-> ->].
  rewrite (add_manual_accepted _ _ st values Hv Hlen). simpl.
  pose proof (Forall2_length Hv) as Hl.
  assert (Hcl : List.length cats = List.length values).
  { unfold cats. rewrite length_map. congruence. }
  split; [reflexivity|].
  split; [rewrite length_combine, Hcl, Nat.min_id; congruence|].
  split.
  - clear -Hcl. revert values Hcl.
    induction cats as [|c cs IH]; intros [|v vs] E; simpl in *;
      try discriminate; [reflexivity|].
    f_equal. apply IH. now injection E.
  - split; [|reflexivity]. clear -Hcl. revert values Hcl.
    induction cats as [|c cs IH]; intros [|v vs] E; simpl in *;
      try discriminate; [reflexivity|].
    f_equal. apply IH. now injection E.
Qed.

Lemma manual_ingestion_success_witness :
  expenses
    (run silent_classifier drawing_pie
       (manual_click "Food, Transport" "100, 50") sample_store) =
  sample_store ++
  [ {| Description := "Manual: Food"; Amount := Fin 100; Category := "Food" |};
    {| Description := "Manual: Transport"; Amount := Fin 50;
       Category := "Transport" |} ].
Proof.
  refine (proj1 (manual_ingestion_success silent_classifier drawing_pie
                   (manual_click "Food, Transport" "100, 50") sample_store
                   [Fin 100; Fin 50] eq_refl _ _)).
  - replace (split_comma (amounts_input _))
      with ["100"; " 50"] by (vm_compute; reflexivity).
    repeat apply Forall2_cons; [| |apply Forall2_nil]; vm_compute; reflexivity.
  - reflexivity.
Defined.

(** ** The aggregator *)

Lemma before_descending (a b : pyfloat) :
  before a b = true <-> descending a b.
Proof.
  unfold before, descending.
  destruct a as [p|s|], b as [q|t|]; cbn [is_nan]; split;
    try (intros [H|H]); try (intros H); try discriminate; auto.
Qed.

Lemma descending_refl (a : pyfloat) : descending a a.
Proof.
  apply before_descending. destruct (before a a) eqn:E; [reflexivity|].
  pose proof (before_total a a E). congruence.
Qed.

Lemma sorted_descending (l : list (string * pyfloat)) :
  StronglySorted desc l ->
  StronglySorted (fun x y => descending (snd x) (snd y)) l.
Proof.
  induction 1 as [|x l _ IH Hx]; constructor; [exact IH|].
  eapply Forall_impl; [|exact Hx].
  intros y Hy. now apply before_descending.
Qed.

(** The summary of a store is a summary of it. *)
Lemma summary_of_summarises (st : store) : summarises st (summary_of st).
Proof.
  unfold summarises. split; [|split; [|split]].
  - eapply Permutation_NoDup; [apply summary_of_keys | apply group_keys_NoDup].
  - intros k. rewrite <- group_keys_In. split; intros H.
    + eapply Permutation_in; [apply Permutation_sym, summary_of_keys|exact H].
    + eapply Permutation_in; [apply summary_of_keys|exact H].
  - intros k v H. unfold summary_of in H.
    eapply Permutation_in in H;
      [|apply Permutation_sym, sort_values_desc_perm].
    now apply groupby_sum_In.
  - apply sorted_descending, sort_values_desc_sorted.
Qed.

(** In a column in descending order no entry is above the first. *)
Lemma sorted_head_first (l : list (string * pyfloat)) (top : string * pyfloat) :
  StronglySorted (fun x y => descending (snd x) (snd y)) l ->
  hd_error l = Some top ->
  Forall (fun row => descending (snd top) (snd row)) l.
Proof.
  intros Hs Hh. destruct l as [|x l]; [discriminate|].
  injection Hh as ->. inversion Hs as [|? ? _ Hall]; subst.
  constructor; [apply descending_refl | exact Hall].
Qed.

Lemma display_aggregates
  (pie : list pyfloat -> list string -> bool) (budget : pyfloat) (st : store)
  (rep : report) :
  display pie budget st = Ok (Some rep) ->
  aggregates st rep /\
  total rep = series_sum (map Amount st) /\
  summary rep = summary_of st /\
  budget_alert rep = budget_check budget (series_sum (map Amount st)).
Proof.
  intros H. apply display_Some in H as (Hne & _ & top & Ht & ->).
  cbn [total avg_expense summary top_category top_amount budget_alert].
  split; [|repeat split].
  unfold aggregates. cbn [total avg_expense summary top_category top_amount].
  split; [reflexivity|].
  split; [apply summary_of_summarises|].
  split; [destruct st; [contradiction | reflexivity]|].
  split; [now destruct top|].
  apply sorted_head_first; [apply summary_of_summarises | exact Ht].
Qed.

Lemma pairwise_sum_unfold (fuel : nat) (xs : list pyfloat) :
  pairwise_sum fuel xs =
  if (List.length xs <? 8)%nat then sum_from fzero xs
  else if (List.length xs <=? 128)%nat then block_sum xs
  else
    match fuel with
    | O => block_sum xs
    | S fuel' =>
        let n2 := (List.length xs / 2 - (List.length xs / 2) mod 8)%nat in
        fadd (pairwise_sum fuel' (firstn n2 xs))
             (pairwise_sum fuel' (skipn n2 xs))
    end.
Proof. destruct fuel; reflexivity. Qed.

(** The fuel that [series_sum] gives, the number of values, is enough for
    every cut to be made: more fuel changes nothing. *)
Lemma pairwise_sum_fuel (fuel fuel' : nat) (xs : list pyfloat) :
  (List.length xs <= fuel)%nat -> (List.length xs <= fuel')%nat ->
  pairwise_sum fuel xs = pairwise_sum fuel' xs.
Proof.
  revert fuel' xs. induction fuel as [|fuel IH]; intros fuel' xs H H';
    rewrite (pairwise_sum_unfold _ xs), (pairwise_sum_unfold fuel' xs);
    destruct (List.length xs <? 8)%nat; try reflexivity;
    destruct (List.length xs <=? 128)%nat eqn:E; try reflexivity;
    apply Nat.leb_gt in E; [lia|].
  destruct fuel' as [|fuel']; [lia|]. cbv zeta.
  pose proof (Nat.div_mod_eq (List.length xs) 2) as D.
  pose proof (Nat.mod_upper_bound (List.length xs) 2) as U2.
  pose proof (Nat.mod_upper_bound (List.length xs / 2) 8) as U8.
  f_equal; apply IH; rewrite ?length_firstn, ?length_skipn; lia.
Qed.





(** ** The budget check *)

Lemma budget_check_positive (budget t : pyfloat) :
  fgtb budget fzero = true -> budget_check budget t = Some (fgtb t budget).
Proof. intros H. unfold budget_check. now rewrite H. Qed.

Lemma budget_check_not_positive (budget t : pyfloat) :
  fgtb budget fzero = false -> budget_check budget t = None.
Proof. intros H. unfold budget_check. now rewrite H. Qed.

Lemma fgeb_not_fltb (x y : pyfloat) : fgeb x y = true -> fltb x y = false.
Proof.
  destruct x, y; simpl; try discriminate; intros H;
    now apply negb_true_iff in H.
Qed.

(** A run whose AI entry does not raise comes to the display block with
    the store it leaves. *)
Lemma run_reaches_display
  (classifier : string -> list string -> result classification)
  (pie : list pyfloat -> list string -> bool)
  (inp : inputs) (st : store) :
  (forall e, ~ ai_fails classifier inp e) ->
  overview_shown (run classifier pie inp st) =
    overview_of (user_budget inp) (expenses (run classifier pie inp st)) /\
  ending (run classifier pie inp st) =
    display pie (user_budget inp) (expenses (run classifier pie inp st)).
Proof.
  intros Hok. unfold run. destruct (clicked inp) eqn:Ec.
  - split; reflexivity.
  - cbn [is_manual is_ai is_clear andb].
    destruct (add_manual _ _ st) as [st1 m1]. split; reflexivity.
  - cbn [is_manual is_ai is_clear andb].
    destruct (user_input inp) as [|c r] eqn:Eu; [split; reflexivity|].
    cbn [non_empty].
    destruct (add_ai classifier (String c r) st) as [[st2 m2]|e] eqn:Ea;
      [split; reflexivity|].
    exfalso. apply (Hok e). unfold ai_fails. rewrite Ec, Eu.
    split; [reflexivity|]. split; [discriminate|].
    now apply add_ai_Raise in Ea.
  - split; reflexivity.
Qed.

(** C7: on a store that is not empty the display block computes the
    total and, for a budget above zero, flags over-budget exactly when
    that total is above the budget; for a budget of zero it makes no
    check.  The flag is shown before the charts are drawn, and is the one
    every report carries.  With the total 175 of the sample store: budget
    100 is exceeded, budget 200 is not, budget 0 is not checked.  The
    total is a float sum: 0.1 and 0.2 exceed a budget of 0.3, while 1e16,
    1 and 1 do not exceed a budget of 1e16. *)
Theorem budget_check_correct :
  (forall budget st, st <> [] ->
     exists ov,
       overview_of budget st = Some ov /\
       ov_total ov = series_sum (map Amount st) /\
       (fgtb budget fzero = true ->
        ov_alert ov = Some (fgtb (ov_total ov) budget)) /\
       (feq budget fzero -> ov_alert ov = None) /\
       (forall pie rep, display pie budget st = Ok (Some rep) ->
          total rep = ov_total ov /\ budget_alert rep = ov_alert ov)) /\
  (forall classifier pie inp st,
     (forall e, ~ ai_fails classifier inp e) ->
     overview_shown (run classifier pie inp st) =
     overview_of (user_budget inp) (expenses (run classifier pie inp st))) /\
  (exists ov, overview_of (Fin 100) sample_store = Some ov /\
              ov_total ov = Fin 175 /\ ov_alert ov = Some true) /\
  (exists ov, overview_of (Fin 200) sample_store = Some ov /\
              ov_total ov = Fin 175 /\ ov_alert ov = Some false) /\
  (exists ov, overview_of (Fin 0) sample_store = Some ov /\
              ov_total ov = Fin 175 /\ ov_alert ov = None) /\
  (forall a b c,
     float "0.1" = Ok a -> float "0.2" = Ok b -> float "0.3" = Ok c ->
     exists ov,
       overview_of c [manual_record "Food" a; manual_record "Taxi" b]
         = Some ov /\
       ov_alert ov = Some true) /\
  (forall a b,
     float "1e16" = Ok a -> float "1" = Ok b ->
     exists ov,
       overview_of a [manual_record "Food" a; manual_record "Taxi" b;
                      manual_record "Taxi" b] = Some ov /\
       ov_total ov = a /\ ov_alert ov = Some false).
Proof.
  split; [|split].
  - intros budget st Hne.
    rewrite (overview_of_non_empty budget st Hne). eexists.
    split; [reflexivity|]. cbn [ov_total ov_alert].
    split; [reflexivity|].
    split; [apply budget_check_positive|].
    split.
    + intros Hz. apply budget_check_not_positive.
      destruct budget as [q| |]; try contradiction. cbn [feq fzero] in Hz.
      unfold fgtb, fltb, fzero. apply negb_false_iff, Qle_bool_iff.
      rewrite Hz. apply Qle_refl.
    + intros pie rep H.
      apply display_aggregates in H as (_ & Ht & _ & Hb). now split.
  - intros classifier pie inp st Hok.
    now apply run_reaches_display.
  - split; [|split; [|split; [|split]]].
    + eexists. split; [vm_compute; reflexivity|]. split; reflexivity.
    + eexists. split; [vm_compute; reflexivity|]. split; reflexivity.
    + eexists. split; [vm_compute; reflexivity|]. split; reflexivity.
    + intros a b c Ha Hb Hc.
      assert (E1 : float "0.1" = Ok (Fin (3602879701896397 # 36028797018963968)))
        by (vm_compute; reflexivity).
      assert (E2 : float "0.2" = Ok (Fin (3602879701896397 # 18014398509481984)))
        by (vm_compute; reflexivity).
      assert (E3 : float "0.3" = Ok (Fin (5404319552844595 # 18014398509481984)))
        by (vm_compute; reflexivity).
      rewrite E1 in Ha. rewrite E2 in Hb. rewrite E3 in Hc.
      injection Ha as <-. injection Hb as <-. injection Hc as <-.
      eexists. split; [vm_compute; reflexivity|]. reflexivity.
    + intros a b Ha Hb.
      assert (E1 : float "1e16" = Ok (Fin 10000000000000000))
        by (vm_compute; reflexivity).
      assert (E2 : float "1" = Ok (Fin 1)) by (vm_compute; reflexivity).
      rewrite E1 in Ha. rewrite E2 in Hb.
      injection Ha as <-. injection Hb as <-.
      eexists. split; [vm_compute; reflexivity|]. split; reflexivity.
Qed.

Lemma budget_check_correct_witness :
  exists ov,
    overview_of (Fin 100) sample_store = Some ov /\
    ov_total ov = series_sum (map Amount sample_store) /\
    (fgtb (Fin 100) fzero = true ->
     ov_alert ov = Some (fgtb (ov_total ov) (Fin 100))) /\
    (feq (Fin 100) fzero -> ov_alert ov = None) /\
    (forall pie rep, display pie (Fin 100) sample_store = Ok (Some rep) ->
       total rep = ov_total ov /\ budget_alert rep = ov_alert ov).
Proof.
  apply (proj1 budget_check_correct (Fin 100) sample_store). discriminate.
Defined.

(** C10: on a store that is not empty, every budget that is zero or below
    (negative ones too, which the numeric input lets through) makes the
    display block skip the budget check; the check is made only for a
    budget above zero.  Every report carries the flag so decided. *)
Theorem budget_check_skipped (budget : pyfloat) (st : store) :
  st <> [] ->
  exists ov,
    overview_of budget st = Some ov /\
    (fgeb fzero budget = true -> ov_alert ov = None) /\
    (ov_alert ov <> None <-> fgtb budget fzero = true) /\
    (forall pie rep, display pie budget st = Ok (Some rep) ->
       budget_alert rep = ov_alert ov).
Proof.
  intros Hne.
  rewrite (overview_of_non_empty budget st Hne). eexists.
  split; [reflexivity|]. cbn [ov_alert].
  split; [|split].
  - intros H. apply budget_check_not_positive. unfold fgtb.
    now apply fgeb_not_fltb.
  - unfold budget_check. destruct (fgtb budget fzero); split;
      congruence.
  - intros pie rep H.
    now apply display_aggregates in H as (_ & _ & _ & Hb).
Qed.

Lemma budget_check_skipped_witness :
  exists ov,
    overview_of (Fin (-50)) sample_store = Some ov /\
    (fgeb fzero (Fin (-50)) = true -> ov_alert ov = None) /\
    (ov_alert ov <> None <-> fgtb (Fin (-50)) fzero = true) /\
    (forall pie rep,
       display pie (Fin (-50)) sample_store = Ok (Some rep) ->
       budget_alert rep = ov_alert ov).
Proof.
  apply (budget_check_skipped (Fin (-50)) sample_store). discriminate.
Defined.

(** ** Clear-all *)

(** C9: after any sequence of runs, a run triggered by clear-all leaves
    the store empty; on the empty store the display block is skipped, and
    on no store does it divide by zero: the divisor is the length of a
    store that is not empty. *)
Theorem clear_all_empties
  (classifier : string -> list string -> result classification)
  (pie : list pyfloat -> list string -> bool)
  (runs : list inputs) (inp : inputs) (budget : pyfloat) (st : store) :
  clicked inp = ClickClear ->
  expenses (run classifier pie inp (session classifier pie runs [])) = [] /\
  session classifier pie (runs ++ [inp]) [] = [] /\
  ending (run classifier pie inp (session classifier pie runs [])) = Ok None /\
  In AllCleared
     (shown (run classifier pie inp (session classifier pie runs []))) /\
  display pie budget [] = Ok None /\
  display pie budget st <> Raise ZeroDivisionError /\
  (forall rep, display pie budget st = Ok (Some rep) ->
               (0 < List.length st)%nat /\
               div_len (total rep) (List.length st) = Ok (avg_expense rep)).
Proof.
  intros Hc.
  assert (E : forall s, run classifier pie inp s =
                        {| expenses := []; shown := [AllCleared];
                           overview_shown := None; ending := Ok None |}).
  { intros s. unfold run. rewrite Hc. reflexivity. }
  unfold session at 2. rewrite fold_left_app. cbn [fold_left].
  fold (session classifier pie runs []).
  rewrite E. cbn [expenses shown ending].
  split; [reflexivity|]. split; [reflexivity|]. split; [reflexivity|].
  split; [now left|]. split; [reflexivity|]. split.
  - intros H. apply display_Raise in H as (_ & _ & H). discriminate.
  - intros rep H. apply display_aggregates in H as (Ha & _).
    split; [|apply Ha].
    destruct st as [|r st]; [|simpl; lia].
    destruct Ha as (_ & _ & Hd & _). discriminate.
Qed.

Lemma clear_all_empties_witness :
  expenses
    (run healthcare_classifier drawing_pie clear_click
       (session healthcare_classifier drawing_pie
          [manual_click "Food, Transport" "100, 50";
           ai_click "Paid ₹600 for medicines"] [])) = [].
Proof.
  refine (proj1 (clear_all_empties healthcare_classifier drawing_pie
                   [manual_click "Food, Transport" "100, 50";
                    ai_click "Paid ₹600 for medicines"]
                   clear_click (Fin 1000) sample_store eq_refl)).
Defined.

(** * Further properties of the script *)

(** ** Runs only append *)

Lemma manual_records_length (cats : list string) (amts : list pyfloat) :
  List.length cats = List.length amts ->
  List.length (manual_records cats amts) = List.length cats.
Proof.
  intros E. unfold manual_records.
  rewrite length_map, length_combine, <- E. apply Nat.min_id.
Qed.

Lemma add_manual_added (cats amts : string) (st : store) :
  exists added,
    fst (add_manual cats amts st) = st ++ added /\
    (added = [] \/
     List.length added = List.length (split_comma cats)).
Proof.
  unfold add_manual.
  destruct (parse_amounts (split_comma amts)) as [values|e].
  - destruct (Nat.eqb_spec (List.length (map strip (split_comma cats)))
                (List.length values)) as [E|E]; simpl.
    + eexists. split; [reflexivity|]. right.
      rewrite (manual_records_length _ _ E). apply length_map.
    + exists []. split; [now rewrite app_nil_r | now left].
  - exists []. destruct (negb _); simpl.
    + split; [now rewrite app_nil_r | now left].
    + unfold manual_records. rewrite combine_nil. simpl. split; [|now left].
      reflexivity.
Qed.

Lemma add_ai_added
  (classifier : string -> list string -> result classification)
  (text : string) (st st' : store) (ms : list message) :
  add_ai classifier text st = Ok (st', ms) ->
  exists a l,
    extract_amount text = Ok a /\
    classify_category classifier text = Ok l /\
    st' = st ++ [{| Description := text; Amount := a; Category := l |}] /\
    ms = [AiAdded a l].
Proof.
  unfold add_ai.
  destruct (extract_amount text) as [a|e]; simpl; [|discriminate].
  destruct (classify_category classifier text) as [l|e]; simpl;
    [|discriminate].
  intros [= <- <-]. exists a, l. repeat split.
Qed.

(** What a run that is not a clear-all adds to the store. *)
Lemma run_added
  (classifier : string -> list string -> result classification)
  (pie : list pyfloat -> list string -> bool)
  (inp : inputs) (st : store) :
  clicked inp <> ClickClear ->
  exists added, expenses (run classifier pie inp st) = st ++ added.
Proof.
  intros Hc. unfold run. destruct (clicked inp) eqn:E; simpl.
  - exists []. now rewrite app_nil_r.
  - destruct (add_manual_added (categories_input inp) (amounts_input inp) st)
      as (added & Ha & _).
    destruct (add_manual _ _ st) as [st1 m1]. simpl in *. now exists added.
  - destruct (non_empty (user_input inp)); simpl;
      [|exists []; now rewrite app_nil_r].
    destruct (add_ai classifier (user_input inp) st) as [[st2 m2]|e] eqn:Ea;
      simpl; [|exists []; now rewrite app_nil_r].
    apply add_ai_added in Ea as (a & l & _ & _ & -> & _). eauto.
  - contradiction.
Qed.

(** X1: a run that is not a clear-all keeps every record of the store in
    place and only appends: nothing after no click, at most one record
    after the AI button, and after the manual button either nothing or as
    many records as the categories field has elements. *)
Theorem run_appends
  (classifier : string -> list string -> result classification)
  (pie : list pyfloat -> list string -> bool)
  (inp : inputs) (st : store) :
  clicked inp <> ClickClear ->
  exists added,
    expenses (run classifier pie inp st) = st ++ added /\
    (clicked inp = NoClick -> added = []) /\
    (clicked inp = ClickAI -> (List.length added <= 1)%nat) /\
    (clicked inp = ClickManual ->
     added = [] \/
     List.length added = List.length (split_comma (categories_input inp))).
Proof.
  intros Hc. unfold run. destruct (clicked inp) eqn:E; simpl.
  - exists []. rewrite app_nil_r. repeat split; intros; auto; discriminate.
  - destruct (add_manual_added (categories_input inp) (amounts_input inp) st)
      as (added & Ha & Hl).
    destruct (add_manual _ _ st) as [st1 m1]. simpl in *. exists added.
    repeat split; intros; auto; discriminate.
  - assert (N : exists added : store,
               st = st ++ added /\ (List.length added <= 1)%nat)
      by (exists []; rewrite app_nil_r; simpl; auto).
    destruct (non_empty (user_input inp)); simpl.
    + destruct (add_ai classifier (user_input inp) st) as [[st2 m2]|e] eqn:Ea;
        simpl.
      * apply add_ai_added in Ea as (a & l & _ & _ & -> & _).
        eexists. split; [reflexivity|].
        repeat split; intros; auto; discriminate.
      * destruct N as (added & Ha & Hl). exists added.
        repeat split; intros; auto; discriminate.
    + destruct N as (added & Ha & Hl). exists added.
      repeat split; intros; auto; discriminate.
  - contradiction.
Qed.

Lemma run_appends_witness :
  exists added,
    expenses (run healthcare_classifier drawing_pie
                (ai_click "Paid ₹600 for medicines") sample_store)
    = sample_store ++ added /\
    (clicked (ai_click "Paid ₹600 for medicines") = NoClick -> added = []) /\
    (clicked (ai_click "Paid ₹600 for medicines") = ClickAI ->
     (List.length added <= 1)%nat) /\
    (clicked (ai_click "Paid ₹600 for medicines") = ClickManual ->
     added = [] \/
     List.length added =
     List.length
       (split_comma (categories_input (ai_click "Paid ₹600 for medicines")))).
Proof.
  apply (run_appends healthcare_classifier drawing_pie
           (ai_click "Paid ₹600 for medicines") sample_store).
  discriminate.
Defined.

Lemma session_cons
  (classifier : string -> list string -> result classification)
  (pie : list pyfloat -> list string -> bool)
  (inp : inputs) (runs : list inputs) (st : store) :
  session classifier pie (inp :: runs) st =
  session classifier pie runs (expenses (run classifier pie inp st)).
Proof. reflexivity. Qed.

(** X2: over a sequence of runs without a clear-all the store only grows
    at its end: the store the sequence started from is a prefix of the
    store it ends with, record for record. *)
Theorem session_appends
  (classifier : string -> list string -> result classification)
  (pie : list pyfloat -> list string -> bool)
  (runs : list inputs) (st : store) :
  Forall (fun inp => clicked inp <> ClickClear) runs ->
  exists added, session classifier pie runs st = st ++ added.
Proof.
  intros H. revert st. induction H as [|inp runs Hc _ IH]; intros st.
  - exists []. simpl. now rewrite app_nil_r.
  - rewrite session_cons.
    destruct (run_added classifier pie inp st Hc) as (a1 & ->).
    destruct (IH (st ++ a1)) as (a2 & ->).
    exists (a1 ++ a2). now rewrite app_assoc.
Qed.

Lemma session_appends_witness :
  exists added,
    session healthcare_classifier drawing_pie
      [manual_click "Food, Transport" "100, 50";
       ai_click "Paid ₹600 for medicines"] sample_store
    = sample_store ++ added.
Proof.
  apply (session_appends healthcare_classifier drawing_pie).
  repeat constructor; discriminate.
Defined.

(** ** Clear-all and the history *)

(** X3: a clear-all makes the session forget what came before it: the
    store after a sequence of runs that holds a clear-all is the store
    that the runs after it build from the empty store. *)
Theorem clear_forgets_history
  (classifier : string -> list string -> result classification)
  (pie : list pyfloat -> list string -> bool)
  (earlier later : list inputs) (inp : inputs) (st : store) :
  clicked inp = ClickClear ->
  session classifier pie (earlier ++ inp :: later) st =
  session classifier pie later [].
Proof.
  intros Hc. unfold session. rewrite fold_left_app. simpl.
  f_equal. unfold run. rewrite Hc. reflexivity.
Qed.

Lemma clear_forgets_history_witness :
  session healthcare_classifier drawing_pie
    ([manual_click "Food, Transport" "100, 50"] ++
     clear_click :: [ai_click "INR 45.50 taxi"]) sample_store =
  session healthcare_classifier drawing_pie [ai_click "INR 45.50 taxi"] [].
Proof.
  apply (clear_forgets_history healthcare_classifier drawing_pie).
  reflexivity.
Defined.

(** ** Exceptions *)

Lemma run_ai_fails
  (classifier : string -> list string -> result classification)
  (pie : list pyfloat -> list string -> bool)
  (inp : inputs) (st : store) (e : exn) :
  ai_fails classifier inp e ->
  run classifier pie inp st =
  {| expenses := st; shown := []; overview_shown := None;
     ending := Raise e |}.
Proof.
  intros (Hc & Hne & H). rewrite (run_ai classifier pie inp st Hc Hne).
  apply (add_ai_Raise classifier (user_input inp) st e) in H.
  now rewrite H.
Qed.

(** Either the AI entry of a run raises, or it does not. *)
Lemma ai_fails_or_not
  (classifier : string -> list string -> result classification)
  (inp : inputs) :
  (exists e, ai_fails classifier inp e) \/
  (forall e, ~ ai_fails classifier inp e).
Proof.
  unfold ai_fails.
  destruct (clicked inp);
    try (right; intros e (H & _); discriminate).
  destruct (user_input inp) as [|c r];
    [right; intros e (_ & H & _); now apply H|].
  destruct (add_ai classifier (String c r) []) as [[st2 m2]|e] eqn:Ea.
  - right. intros e (_ & _ & H).
    apply (add_ai_Raise classifier (String c r) [] e) in H. congruence.
  - left. exists e. split; [reflexivity|]. split; [discriminate|].
    now apply add_ai_Raise in Ea.
Qed.

(** X4: a run ends with an exception in two ways only.  Either the AI
    button was clicked on a text that is not empty and the amount
    extraction raises, or the classifier raises, or the classifier's
    result lists no label ([IndexError]): such a run leaves the store as
    it was and shows no message.  Or the run, whichever button triggered
    it, comes to the display block with a store that is not empty, and
    the pie chart of its summary raises [ValueError], as it does on a
    negative sum. *)
Theorem run_raises_iff
  (classifier : string -> list string -> result classification)
  (pie : list pyfloat -> list string -> bool)
  (inp : inputs) (st : store) (e : exn) :
  (ending (run classifier pie inp st) = Raise e <->
   ai_fails classifier inp e \/
   ((forall e', ~ ai_fails classifier inp e') /\
    expenses (run classifier pie inp st) <> [] /\
    pie (map snd (summary_of (expenses (run classifier pie inp st))))
        (map fst (summary_of (expenses (run classifier pie inp st))))
      = false /\
    e = ValueError)) /\
  (ai_fails classifier inp e ->
   expenses (run classifier pie inp st) = st /\
   shown (run classifier pie inp st) = [] /\
   ending (run classifier pie inp st) = Raise e).
Proof.
  split; [split|].
  - intros H. destruct (ai_fails_or_not classifier inp) as [[e' Hf]|Hok].
    + left. rewrite (run_ai_fails classifier pie inp st e' Hf) in H.
      cbn [ending] in H. now injection H as <-.
    + right. split; [exact Hok|].
      destruct (run_reaches_display classifier pie inp st Hok) as [_ Hd].
      rewrite Hd in H. now apply display_Raise in H.
  - intros [Hf | (Hok & Hne & Hp & ->)].
    + now rewrite (run_ai_fails classifier pie inp st e Hf).
    + destruct (run_reaches_display classifier pie inp st Hok) as [_ ->].
      apply display_Raise. auto.
  - intros Hf. rewrite (run_ai_fails classifier pie inp st e Hf).
    repeat split.
Qed.

Lemma run_raises_iff_witness :
  ending (run silent_classifier refusing_pie (manual_click "Food" "-5") [])
  = Raise ValueError.
Proof.
  apply (proj2 (proj1 (run_raises_iff silent_classifier refusing_pie
                         (manual_click "Food" "-5") [] ValueError))).
  right. split; [|split; [|split]].
  - intros e' (H & _). discriminate.
  - vm_compute. discriminate.
  - vm_compute. reflexivity.
  - reflexivity.
Defined.

(** ** AI entry *)

(** X5: when the amount extraction succeeds and the classifier's result
    lists at least one label, the AI submission appends exactly one
    record: the text as typed for description, the extracted amount, which
    is never negative, and the first label for category, whether it is one
    of the candidate labels or not; the run then goes on to the display
    block, which it enters with the store so extended. *)
Theorem ai_ingestion_success
  (classifier : string -> list string -> result classification)
  (pie : list pyfloat -> list string -> bool)
  (inp : inputs) (st : store) (a : pyfloat) (l : string) (ls : list string) :
  clicked inp = ClickAI -> user_input inp <> "" ->
  extract_amount (user_input inp) = Ok a ->
  classifier (user_input inp) CATEGORY_LABELS = Ok (Labels (l :: ls)) ->
  expenses (run classifier pie inp st) =
    st ++ [{| Description := user_input inp; Amount := a; Category := l |}] /\
  shown (run classifier pie inp st) = [AiAdded a l] /\
  ending (run classifier pie inp st) =
    display pie (user_budget inp)
      (st ++ [{| Description := user_input inp; Amount := a;
                 Category := l |}]) /\
  non_negative a.
Proof.
  intros Hc Hne Ha Hl.
  rewrite (run_ai classifier pie inp st Hc Hne).
  unfold add_ai, classify_category. rewrite Ha, Hl.
  unfold bind, iloc0. cbn [expenses shown ending app].
  repeat split.
  now apply extract_amount_non_negative with (user_input inp).
Qed.

Lemma ai_ingestion_success_witness :
  expenses
    (run healthcare_classifier drawing_pie
       (ai_click "Paid ₹600 for medicines") sample_store) =
  sample_store ++ [{| Description := "Paid ₹600 for medicines";
                      Amount := Fin 600;
                      Category := "Healthcare" |}].
Proof.
  refine (proj1
    (ai_ingestion_success healthcare_classifier drawing_pie
       (ai_click "Paid ₹600 for medicines") sample_store (Fin 600)
       "Healthcare" _ _ _ _ _)).
  - reflexivity.
  - discriminate.
  - vm_compute; reflexivity.
  - reflexivity.
Defined.

(** X6: a run that no button triggered, and a run of the AI button on an
    empty text, change nothing: the store is left as it was, no message
    is shown, and the run only displays the store it found. *)
Theorem run_without_effect
  (classifier : string -> list string -> result classification)
  (pie : list pyfloat -> list string -> bool)
  (inp : inputs) (st : store) :
  clicked inp = NoClick \/ (clicked inp = ClickAI /\ user_input inp = "") ->
  expenses (run classifier pie inp st) = st /\
  shown (run classifier pie inp st) = [] /\
  ending (run classifier pie inp st) = display pie (user_budget inp) st.
Proof.
  intros [Hc | [Hc Hu]]; unfold run; rewrite Hc; simpl.
  - repeat split.
  - rewrite Hu. simpl. repeat split.
Qed.

Lemma run_without_effect_witness :
  expenses (run failing_classifier drawing_pie (ai_click "") sample_store)
  = sample_store /\
  shown (run failing_classifier drawing_pie (ai_click "") sample_store) = [] /\
  ending (run failing_classifier drawing_pie (ai_click "") sample_store) =
    display drawing_pie (user_budget (ai_click "")) sample_store.
Proof.
  apply (run_without_effect failing_classifier drawing_pie (ai_click "")
           sample_store).
  right. split; reflexivity.
Defined.

(** X7: a run depends on the classifier only through its answer to the
    submitted text with the fixed labels, and not at all unless the AI
    button was clicked on a text that is not empty and whose amount
    extraction succeeded: the amount is extracted before the classifier
    is asked. *)
Theorem classifier_consulted_once
  (pie : list pyfloat -> list string -> bool)
  (c1 c2 : string -> list string -> result classification)
  (inp : inputs) (st : store) :
  clicked inp <> ClickAI \/ user_input inp = "" \/
  (exists e, extract_amount (user_input inp) = Raise e) \/
  c1 (user_input inp) CATEGORY_LABELS = c2 (user_input inp) CATEGORY_LABELS ->
  run c1 pie inp st = run c2 pie inp st.
Proof.
  intros H. unfold run.
  destruct (clicked inp) eqn:Ec; simpl; try reflexivity.
  destruct (user_input inp) as [|c r] eqn:Eu; simpl; [reflexivity|].
  destruct H as [H | [H | [[e H] | H]]];
    [contradiction | discriminate | |].
  - unfold add_ai. rewrite H. reflexivity.
  - unfold add_ai, classify_category. now rewrite H.
Qed.

Lemma classifier_consulted_once_witness :
  run healthcare_classifier drawing_pie (ai_click "INR 45,50") sample_store =
  run failing_classifier drawing_pie (ai_click "INR 45,50") sample_store.
Proof.
  apply (classifier_consulted_once drawing_pie healthcare_classifier
           failing_classifier).
  right. right. left. exists ValueError. vm_compute. reflexivity.
Defined.

(** ** The outcomes of a manual submission *)

Lemma parse_amounts_all_parse (fields : list string) :
  all_parse fields <-> exists values, parse_amounts fields = Ok values.
Proof.
  unfold all_parse. induction fields as [|f fs IH]; simpl.
  - split; [eauto | constructor].
  - split.
    + intros H. inversion H as [|? ? [a Ha] Hfs]; subst.
      apply IH in Hfs as [values Hv]. rewrite Ha, Hv. simpl. eauto.
    + intros [values H].
      destruct (float (strip f)) as [a|e] eqn:Ef; simpl in H; [|discriminate].
      destruct (parse_amounts fs) as [rest|e] eqn:Er; simpl in H;
        [|discriminate].
      constructor; [eauto|]. apply IH. eauto.
Qed.

(** X8: a manual submission has three outcomes.  When every amount
    element parses and the two fields hold the same number of elements the
    only message is the success note.  When every amount parses but the
    counts differ, the only message is the count error.  When some amount
    does not parse, both error messages are shown, the count error too
    even if the counts agree.  In the last two the store is unchanged. *)
Theorem manual_outcome
  (classifier : string -> list string -> result classification)
  (pie : list pyfloat -> list string -> bool)
  (inp : inputs) (st : store) :
  clicked inp = ClickManual ->
  (all_parse (split_comma (amounts_input inp)) /\
   List.length (split_comma (categories_input inp)) =
   List.length (split_comma (amounts_input inp)) ->
   shown (run classifier pie inp st) = [ManualAdded]) /\
  (all_parse (split_comma (amounts_input inp)) /\
   List.length (split_comma (categories_input inp)) <>
   List.length (split_comma (amounts_input inp)) ->
   shown (run classifier pie inp st) = [CountsMustMatch] /\
   expenses (run classifier pie inp st) = st) /\
  (~ all_parse (split_comma (amounts_input inp)) ->
   shown (run classifier pie inp st) = [AmountsMustBeNumeric; CountsMustMatch] /\
   expenses (run classifier pie inp st) = st).
Proof.
  intros Hc. destruct (run_manual classifier pie inp st Hc) as [-> ->].
  unfold add_manual. rewrite length_map.
  destruct (parse_amounts (split_comma (amounts_input inp)))
    as [values|e] eqn:Ep.
  - pose proof (parse_amounts_length _ _ Ep) as Hl. rewrite <- Hl.
    assert (Hall : all_parse (split_comma (amounts_input inp)))
      by (apply parse_amounts_all_parse; eauto).
    destruct (Nat.eqb_spec (List.length (split_comma (categories_input inp)))
                (List.length values)) as [E|E]; simpl.
    + split; [intros _; reflexivity|].
      split; [intros [_ H]; contradiction | intros H; contradiction].
    + split; [intros [_ H]; contradiction|].
      split; [intros _; split; reflexivity | intros H; contradiction].
  - assert (Hno : ~ all_parse (split_comma (amounts_input inp))).
    { intros H. apply parse_amounts_all_parse in H as [values H]. congruence. }
    pose proof (split_comma_length_pos (categories_input inp)) as Hpos.
    destruct (List.length (split_comma (categories_input inp))) as [|n];
      [lia|]. simpl.
    split; [intros [H _]; contradiction|].
    split; [intros [H _]; contradiction | intros _; split; reflexivity].
Qed.

Lemma manual_outcome_witness :
  shown
    (run silent_classifier drawing_pie
       (manual_click "Food, Transport" "100, x") sample_store)
  = [AmountsMustBeNumeric; CountsMustMatch] /\
  expenses
    (run silent_classifier drawing_pie
       (manual_click "Food, Transport" "100, x") sample_store)
  = sample_store.
Proof.
  apply (proj2 (proj2 (manual_outcome silent_classifier drawing_pie
                         (manual_click "Food, Transport" "100, x")
                         sample_store eq_refl))).
  intros H. apply parse_amounts_all_parse in H as [values H].
  vm_compute in H. discriminate.
Defined.

(** ** Trimmed categories *)

Lemma drop_while_head (p : ascii -> bool) (s : string) :
  match drop_while p s with
  | EmptyString => True
  | String c _ => p c = false
  end.
Proof.
  induction s as [|c r IH]; simpl; [exact I|].
  destruct (p c) eqn:E; [exact IH | exact E].
Qed.

Lemma drop_while_end_cons (p : ascii -> bool) (c : ascii) (r : string) :
  p c = false ->
  drop_while_end p (String c r) = String c (drop_while_end p r).
Proof.
  intros E. simpl. destruct (drop_while_end p r); [now rewrite E|reflexivity].
Qed.

Lemma drop_while_end_idempotent (p : ascii -> bool) (s : string) :
  drop_while_end p (drop_while_end p s) = drop_while_end p s.
Proof.
  induction s as [|c r IH]; simpl; [reflexivity|].
  destruct (drop_while_end p r) as [|c' t] eqn:E.
  - destruct (p c) eqn:Pc; simpl; [reflexivity | now rewrite Pc].
  - change (drop_while_end p (String c (String c' t)))
      with (match drop_while_end p (String c' t) with
            | EmptyString => if p c then EmptyString else String c EmptyString
            | r' => String c r'
            end).
    now rewrite IH.
Qed.

(** [strip] leaves a trimmed string as it is. *)
Lemma strip_idempotent (s : string) : strip (strip s) = strip s.
Proof.
  unfold strip. pose proof (drop_while_head is_space s) as H.
  destruct (drop_while is_space s) as [|c r]; [reflexivity|].
  rewrite (drop_while_end_cons _ _ _ H). simpl drop_while. rewrite H.
  rewrite <- (drop_while_end_cons _ _ _ H).
  apply drop_while_end_idempotent.
Qed.

(** X9: every record that a manual submission appends has the description
    ["Manual: "] followed by its category, and its category is an element
    of the categories field with the surrounding whitespace removed, so
    that trimming it again changes nothing. *)
Theorem manual_records_shape
  (classifier : string -> list string -> result classification)
  (pie : list pyfloat -> list string -> bool)
  (inp : inputs) (st : store) :
  clicked inp = ClickManual ->
  exists added,
    expenses (run classifier pie inp st) = st ++ added /\
    Forall (fun r =>
              manual_shaped r /\
              strip (Category r) = Category r /\
              exists f, In f (split_comma (categories_input inp)) /\
                        Category r = strip f) added.
Proof.
  intros Hc. destruct (run_manual classifier pie inp st Hc) as [-> _].
  unfold add_manual.
  destruct (parse_amounts (split_comma (amounts_input inp))) as [values|e];
    destruct (negb _); simpl;
    try (exists []; split; [now rewrite app_nil_r | constructor]).
  - eexists. split; [reflexivity|].
    apply Forall_forall. intros r Hr. unfold manual_records in Hr.
    apply in_map_iff in Hr as ([c a] & <- & Hin). simpl.
    apply in_combine_l, in_map_iff in Hin as (f & <- & Hf).
    split; [reflexivity|]. split; [apply strip_idempotent | eauto].
  - exists []. unfold manual_records. rewrite combine_nil. simpl.
    split; [reflexivity | constructor].
Qed.

Lemma manual_records_shape_witness :
  exists added,
    expenses (run silent_classifier drawing_pie
                (manual_click "  Food ,Transport  " "100, 50") sample_store)
    = sample_store ++ added /\
    Forall (fun r =>
              manual_shaped r /\
              strip (Category r) = Category r /\
              exists f,
                In f (split_comma
                        (categories_input
                           (manual_click "  Food ,Transport  " "100, 50"))) /\
                Category r = strip f) added.
Proof.
  apply (manual_records_shape silent_classifier drawing_pie
           (manual_click "  Food ,Transport  " "100, 50") sample_store).
  reflexivity.
Defined.

(** ** What the extractor returns *)

(** X10: [extract_amount] returns a number that is not negative, or the
    positive infinity, which [float] gives for digits beyond the range of
    a float, or raises [ValueError]; never a negative number or NaN, and
    no other exception.  It raises exactly when the number at the first
    digit of the text is written with a comma.  A one followed by 308
    zeros is still read as a number, a one followed by 309 zeros as the
    infinity. *)
Theorem extract_amount_outcome (text : string) :
  ((exists q, extract_amount text = Ok (Fin q) /\ (0 <= q)%Q) \/
   extract_amount text = Ok (Inf false) \/
   extract_amount text = Raise ValueError) /\
  ((exists e, extract_amount text = Raise e) <->
   exists d1 d2,
     all_digits d1 /\ d1 <> "" /\ all_digits d2 /\
     re_search text = Some (d1 ++ String "," d2)%string) /\
  (exists q, extract_amount (String "1" (zeros 308)) = Ok (Fin q)) /\
  extract_amount (String "1" (zeros 309)) = Ok (Inf false).
Proof.
  split; [|split; [|split]].
  - destruct (extract_amount_cases text) as [(a & -> & Ha) | (-> & _)];
      [|now right; right].
    destruct a as [q|[]|]; try discriminate Ha.
    + left. exists q. split; [reflexivity | now apply non_negative_Fin].
    + right. now left.
  - unfold extract_amount.
    destruct (re_search text) as [g|] eqn:S.
    + pose proof S as S'.
      rewrite re_search_first_number in S'. unfold first_number in S'.
      apply number_at_shape in S'
        as (d1 & H1 & Hne & [-> | (c & d2 & Hc & H2 & ->)]).
      * rewrite float_integer by assumption. split.
        -- intros [e H]. discriminate.
        -- intros (e1 & e2 & D1 & _ & _ & E). exfalso.
           injection E as E. rewrite E in H1.
           unfold all_digits in H1. rewrite forallb_str_app in H1.
           apply andb_prop in H1 as [_ H1]. simpl in H1. discriminate.
      * destruct (separator_char c Hc) as ([-> | ->] & _).
        -- rewrite float_point by assumption. split.
           ++ intros [e H]. discriminate.
           ++ intros (e1 & e2 & D1 & _ & D2 & E). exfalso.
              injection E as E.
              assert (F : forallb_str (fun x => negb (code x =? 44)%N)
                            (d1 ++ String "." d2) = true).
              { rewrite forallb_str_app. simpl.
                apply andb_true_intro; split;
                  (eapply forallb_str_impl; [|eassumption]);
                  intros x Hx; each_char x. }
              rewrite E, forallb_str_app in F.
              apply andb_prop in F as [_ F]. simpl in F. discriminate.
        -- rewrite float_comma by assumption. split; [|eauto].
           intros _. exists d1, d2. repeat split; assumption.
    + split.
      * intros [e H]. discriminate.
      * intros (d1 & d2 & _ & _ & _ & E). discriminate.
  - eexists. vm_compute. reflexivity.
  - vm_compute. reflexivity.
Qed.

Lemma extract_amount_outcome_witness :
  exists e, extract_amount "1,000 for rent" = Raise e.
Proof.
  apply (proj2 (proj1 (proj2 (extract_amount_outcome "1,000 for rent")))).
  exists "1", "000". repeat split; try reflexivity; discriminate.
Defined.

(** X11: what stands before the first digit of a text plays no role in
    the extracted amount: a currency marker, words, and a minus sign too,
    which is never read as a sign. *)
Theorem extract_amount_ignores_prefix (pre text : string) :
  no_digit pre -> extract_amount (pre ++ text) = extract_amount text.
Proof.
  intros H. unfold extract_amount.
  now rewrite !re_search_first_number, first_number_skip_prefix.
Qed.

Lemma extract_amount_ignores_prefix_witness :
  extract_amount ("Refund of -" ++ "500 received") =
  extract_amount "500 received".
Proof.
  apply (extract_amount_ignores_prefix "Refund of -" "500 received").
  reflexivity.
Defined.

(** ** Where the categories of the store come from *)

Lemma run_Forall (P : expense -> Prop)
  (classifier : string -> list string -> result classification)
  (pie : list pyfloat -> list string -> bool)
  (inp : inputs) (st : store) :
  (forall c a, P (manual_record c a)) ->
  (forall text a l, classify_category classifier text = Ok l ->
                    P {| Description := text; Amount := a; Category := l |}) ->
  Forall P st -> Forall P (expenses (run classifier pie inp st)).
Proof.
  intros Hm Ha Hst. unfold run.
  destruct (clicked inp); simpl.
  - exact Hst.
  - unfold add_manual.
    destruct (parse_amounts _) as [values|e]; destruct (negb _); simpl;
      try exact Hst;
      (apply Forall_app; split; [exact Hst|]);
      apply Forall_forall; intros r Hr; unfold manual_records in Hr;
      apply in_map_iff in Hr as ([c a] & <- & _); apply Hm.
  - destruct (non_empty (user_input inp)); simpl; [|exact Hst].
    destruct (add_ai classifier (user_input inp) st) as [[st2 m2]|e] eqn:Ea;
      simpl; [|exact Hst].
    apply add_ai_added in Ea as (a & l & _ & Hl & -> & _).
    apply Forall_app. split; [exact Hst|].
    constructor; [now apply Ha | constructor].
  - constructor.
Qed.

(** X12: if the classifier only ever puts a candidate label first, then
    after any sequence of runs from the empty store every record either
    reads as a manual record (its description is ["Manual: "] followed by
    its category) or carries one of the seven fixed labels; the fallback
    ["Others"] is one of them. *)
Theorem categories_provenance
  (classifier : string -> list string -> result classification)
  (pie : list pyfloat -> list string -> bool)
  (runs : list inputs) :
  answers_candidates classifier ->
  Forall (fun r => manual_shaped r \/ In (Category r) CATEGORY_LABELS)
         (session classifier pie runs []).
Proof.
  intros Hl.
  assert (G : forall st,
             Forall (fun r => manual_shaped r \/
                              In (Category r) CATEGORY_LABELS) st ->
             Forall (fun r => manual_shaped r \/
                              In (Category r) CATEGORY_LABELS)
                    (session classifier pie runs st)).
  { induction runs as [|inp runs IH]; intros st Hst; [exact Hst|].
    rewrite session_cons. apply IH. apply run_Forall; [| |exact Hst].
    - intros c a. left. reflexivity.
    - intros text a l H. right. simpl.
      unfold classify_category in H.
      destruct (classifier text CATEGORY_LABELS) as [[|[|l' ls]]|e] eqn:Ec;
        simpl in H; try discriminate; injection H as <-.
      + simpl. tauto.
      + now apply (Hl text l' ls). }
  apply G. constructor.
Qed.

Lemma categories_provenance_witness :
  Forall (fun r => manual_shaped r \/ In (Category r) CATEGORY_LABELS)
    (session healthcare_classifier drawing_pie
       [manual_click "Rent, Gifts" "900, 40";
        ai_click "Paid ₹600 for medicines"] []).
Proof.
  apply (categories_provenance healthcare_classifier drawing_pie).
  intros text l ls H. injection H as <- _. simpl. tauto.
Defined.

(** ** Where the display block can fail *)

Lemma summary_of_length (st : store) :
  List.length (summary_of st) = List.length (group_keys st).
Proof.
  rewrite <- (length_map fst (summary_of st)).
  symmetry. apply Permutation_length, summary_of_keys.
Qed.

Lemma group_keys_length (st : store) :
  (List.length (group_keys st) <= List.length st)%nat.
Proof.
  unfold group_keys.
  rewrite <- (Permutation_length (sort_keys_perm _)).
  rewrite <- (length_map Category st).
  apply NoDup_incl_length; [apply NoDup_nodup|].
  intros k Hk. now apply nodup_In in Hk.
Qed.

(** X13: the display block fails nowhere but at the pie chart.  It is
    skipped exactly on the empty store.  On any other store it raises
    exactly when the pie chart refuses the summary, and then
    [ValueError]; otherwise it returns a report.  The summary it builds
    has at least one row, so that taking its first row cannot fail, and
    at most as many rows as the store has records. *)
Theorem display_fails_at_pie
  (pie : list pyfloat -> list string -> bool) (budget : pyfloat) (st : store) :
  (display pie budget st = Ok None <-> st = []) /\
  (forall e,
     display pie budget st = Raise e <->
     st <> [] /\
     pie (map snd (summary_of st)) (map fst (summary_of st)) = false /\
     e = ValueError) /\
  ((exists rep, display pie budget st = Ok (Some rep)) <->
   st <> [] /\
   pie (map snd (summary_of st)) (map fst (summary_of st)) = true) /\
  (forall rep, display pie budget st = Ok (Some rep) ->
     summary rep = summary_of st) /\
  (st <> [] ->
   (1 <= List.length (summary_of st) <= List.length st)%nat).
Proof.
  split; [apply display_None|].
  split; [intros e; apply display_Raise|].
  split; [|split].
  - split.
    + intros [rep H]. apply display_Some in H as (Hne & Hp & _). now split.
    + intros [Hne Hp].
      destruct (display_non_empty pie budget st Hne) as (top & _ & ->).
      rewrite Hp. eauto.
  - intros rep H. now apply display_aggregates in H as (_ & _ & Hs & _).
  - intros Hne. split.
    + destruct st as [|r st]; [contradiction|].
      pose proof (summary_of_not_nil r st) as Hs.
      destruct (summary_of (r :: st)); [contradiction | simpl; lia].
    + rewrite summary_of_length. apply group_keys_length.
Qed.

Lemma display_fails_at_pie_witness :
  (1 <= List.length (summary_of sample_store)
     <= List.length sample_store)%nat.
Proof.
  apply (proj2 (proj2 (proj2 (proj2
           (display_fails_at_pie drawing_pie (Fin 1000) sample_store))))).
  discriminate.
Defined.

(** ** Sums that are rounded apart *)

(** X14: the total and the rows of the summary are rounded sums, made
    apart from each other, and the rows need not add up to the total.
    For the amounts 1e16 under one category and 1 and 1 under another,
    the total is 1e16, each 1 being lost when it is added, while the rows
    are 1e16 and 2, which add up to 1e16 + 2. *)
Theorem summary_rounded_apart :
  series_sum (map Amount large_rent_store) = Fin 10000000000000000 /\
  summary_of large_rent_store =
    [("Rent", Fin 10000000000000000); ("Food", Fin 2)] /\
  fadd (Fin 10000000000000000) (Fin 2) = Fin 10000000000000002 /\
  (forall pie budget rep,
     display pie budget large_rent_store = Ok (Some rep) ->
     total rep = Fin 10000000000000000 /\
     summary rep = [("Rent", Fin 10000000000000000); ("Food", Fin 2)]).
Proof.
  assert (E1 : series_sum (map Amount large_rent_store)
               = Fin 10000000000000000) by (vm_compute; reflexivity).
  assert (E2 : summary_of large_rent_store =
               [("Rent", Fin 10000000000000000); ("Food", Fin 2)])
    by (vm_compute; reflexivity).
  split; [exact E1|]. split; [exact E2|].
  split; [vm_compute; reflexivity|].
  intros pie budget rep H.
  apply display_aggregates in H as (_ & Ht & Hs & _).
  rewrite Ht, Hs. now split.
Qed.

(** X15: a row of the summary can lie above the total, even when no
    amount is negative: the sum of a category carries what rounding
    lost, the total does not.  For the amounts 1e16, 1 and 1 under one
    category the total is 1e16 and the row, hence the top amount, is
    1e16 + 2. *)
Theorem summary_row_above_total :
  Forall (fun r => non_negative (Amount r)) large_food_store /\
  series_sum (map Amount large_food_store) = Fin 10000000000000000 /\
  summary_of large_food_store = [("Food", Fin 10000000000000002)] /\
  (forall pie budget rep,
     display pie budget large_food_store = Ok (Some rep) ->
     total rep = Fin 10000000000000000 /\
     top_amount rep = Fin 10000000000000002 /\
     fgtb (top_amount rep) (total rep) = true).
Proof.
  assert (E1 : series_sum (map Amount large_food_store)
               = Fin 10000000000000000) by (vm_compute; reflexivity).
  assert (E2 : summary_of large_food_store =
               [("Food", Fin 10000000000000002)])
    by (vm_compute; reflexivity).
  split; [repeat constructor|]. split; [exact E1|]. split; [exact E2|].
  intros pie budget rep H.
  apply display_aggregates in H as (Ha & Ht & Hs & _).
  destruct Ha as (_ & _ & _ & Hh & _).
  rewrite Hs, E2 in Hh. injection Hh as _ Hh.
  rewrite Ht, E1, <- Hh. repeat split.
Qed.

(** ** Descriptions play no role in the report *)

Lemma group_rows_cons (k : string) (r : expense) (st : store) :
  group_rows k (r :: st) =
  if Category r =? k then r :: group_rows k st else group_rows k st.
Proof. reflexivity. Qed.

Lemma same_columns_rows (k : string) (st st' : store) :
  map Amount st = map Amount st' -> map Category st = map Category st' ->
  map Amount (group_rows k st) = map Amount (group_rows k st').
Proof.
  revert st'. induction st as [|r st IH]; intros [|r' st'] Ha Hc;
    try discriminate; [reflexivity|].
  simpl in Ha, Hc. injection Ha as Ea Ha. injection Hc as Ec Hc.
  rewrite !group_rows_cons, Ec.
  destruct (Category r' =? k); simpl; [f_equal; [exact Ea|]|]; now apply IH.
Qed.

(** X16: the report depends on the amounts and the categories of the
    records only: two stores that agree on them, record by record, are
    displayed with the same total, budget note, summary, average and top
    category, whatever their descriptions. *)
Theorem display_ignores_descriptions
  (pie : list pyfloat -> list string -> bool) (budget : pyfloat)
  (st st' : store) :
  map Amount st = map Amount st' -> map Category st = map Category st' ->
  display pie budget st = display pie budget st'.
Proof.
  intros Ha Hc.
  assert (Hl : List.length st = List.length st')
    by (rewrite <- (length_map Amount st), Ha; apply length_map).
  assert (Hs : groupby_sum st = groupby_sum st').
  { unfold groupby_sum, group_keys. rewrite Hc. apply map_ext.
    intros k. now rewrite (same_columns_rows k st st'). }
  destruct st as [|r st], st' as [|r' st']; try discriminate; [reflexivity|].
  unfold display. rewrite !overview_of_non_empty by discriminate.
  unfold summary_of. now rewrite Ha, Hs, Hl.
Qed.

Lemma display_ignores_descriptions_witness :
  display drawing_pie (Fin 100) sample_store =
  display drawing_pie (Fin 100)
    [ {| Description := "lunch"; Amount := Fin 100; Category := "Food" |};
      {| Description := "snack"; Amount := Fin 50; Category := "Food" |};
      {| Description := "bus"; Amount := Fin 25; Category := "Transport" |} ].
Proof.
  apply (display_ignores_descriptions drawing_pie (Fin 100) sample_store);
    reflexivity.
Defined.

(** ** The extractor and the manual parser on plain numbers *)

(** X17: on a text that is nothing but a number written as one digit or
    more, followed or not by a point and further digits,
    [extract_amount] returns what [float] returns on it: typed as an AI
    text or as a manual amount, such a number is read as the same
    amount.  A number that starts with the point is not of that kind:
    of [.50] the extractor reads the digits alone. *)
Theorem extract_amount_agrees_with_float (d1 d2 : string) :
  all_digits d1 -> d1 <> "" -> all_digits d2 ->
  extract_amount d1 = float d1 /\
  extract_amount (d1 ++ String "." d2) = float (d1 ++ String "." d2) /\
  extract_amount ".50" = Ok (Fin 50) /\
  float ".50" = Ok (Fin (1 # 2)).
Proof.
  intros H1 Hne H2.
  split; [|split; [|split; vm_compute; reflexivity]]; unfold extract_amount.
  - rewrite re_search_first_number.
    destruct d1 as [|a d] eqn:E; [contradiction|]. rewrite <- E in *.
    assert (Ha : is_digit a = true).
    { rewrite E in H1. unfold all_digits in H1. simpl in H1.
      now apply andb_prop in H1 as [Ha _]. }
    assert (F : first_number d1 = Some d1).
    { rewrite E at 1. rewrite first_number_digit by assumption.
      rewrite <- E. rewrite <- (append_empty_r d1) at 1.
      now apply number_at_integer. }
    now rewrite F.
  - pose proof (re_search_fraction "" d1 d2 "" "."
                  eq_refl H1 Hne eq_refl H2 I) as S.
    simpl in S. rewrite append_empty_r in S. now rewrite S.
Qed.

Lemma extract_amount_agrees_with_float_witness :
  extract_amount "45" = float "45" /\
  extract_amount ("45" ++ String "." "50") = float ("45" ++ String "." "50").
Proof.
  assert (H : all_digits "45" /\ "45" <> "" /\ all_digits "50")
    by (repeat split; discriminate).
  destruct H as (H1 & Hne & H2).
  destruct (extract_amount_agrees_with_float "45" "50" H1 Hne H2)
    as (E1 & E2 & _).
  split; [exact E1 | exact E2].
Defined.
